(** * Subdomain Enumeration Tool: a shallow embedding of
      [Subdomain_Enumeration_Tool.py] and the properties of its probes,
      its scan block and its exporter.

    Python values are modelled as follows.
    - [str] is [string]; a character is a code point below 256.
    - [set] of [str] is [gset string]; [list(a_set)] is [elements], whose
      order is as unspecified as Python's.
    - A call that may raise returns a [result]; the probes run in the
      monad [M] that threads the file system and the trace of their
      interactions with the outside world.
    - The network, the external tool, the DNS and the clock are oracles
      collected in [Env]. *)

From stdpp Require Import base strings list gmap pretty sorting.
From Stdlib Require Import Ascii String.

Local Open Scope string_scope.
Local Open Scope list_scope.

(** ** Python string primitives *)

Module Py.

(** [str.isspace] on one character, for code points below 256. *)
Definition isspace (c : ascii) : bool :=
  let n := nat_of_ascii c in
  (((9 <=? n) && (n <=? 13)) || ((28 <=? n) && (n <=? 32))
   || (n =? 133) || (n =? 160))%nat.

Fixpoint lstrip (s : string) : string :=
  match s with
  | "" => ""
  | String c s' => if isspace c then lstrip s' else s
  end.

Fixpoint rstrip (s : string) : string :=
  match s with
  | "" => ""
  | String c s' =>
      match rstrip s' with
      | "" => if isspace c then "" else String c ""
      | r => String c r
      end
  end.

(** [s.strip()] *)
Definition strip (s : string) : string := rstrip (lstrip s).

(** [s.split(sep)] for a one-character separator: never the empty list. *)
Fixpoint split (sep : ascii) (s : string) : list string :=
  match s with
  | "" => [""]
  | String c s' =>
      if Ascii.eqb c sep then "" :: split sep s'
      else match split sep s' with
           | [] => [String c ""]
           | piece :: rest => String c piece :: rest
           end
  end.

(** Truth value of a string: [if n:] *)
Definition truthy (s : string) : bool :=
  match s with "" => false | _ => true end.

Definition LF : ascii := "010"%char.
Definition CR : ascii := "013"%char.

(** Line boundaries of [str.splitlines], below code point 256. *)
Definition is_linebreak (c : ascii) : bool :=
  let n := nat_of_ascii c in
  (((10 <=? n) && (n <=? 13)) || ((28 <=? n) && (n <=? 30))
   || (n =? 133))%nat.

(** [s.splitlines()]: the pieces between line boundaries, CR LF counted
    as one boundary, no empty last piece. *)
Fixpoint splitlines_from (cur : string) (s : string) : list string :=
  match s with
  | "" => match cur with "" => [] | _ => [cur] end
  | String c s' =>
      if is_linebreak c then
        match s' with
        | String c' s'' =>
            if Ascii.eqb c CR && Ascii.eqb c' LF
            then cur :: splitlines_from "" s''
            else cur :: splitlines_from "" s'
        | "" => [cur]
        end
      else splitlines_from (cur +:+ String c "") s'
  end.

Definition splitlines (s : string) : list string := splitlines_from "" s.

(** Iterating a file opened in text mode: the lines with their end kept,
    CR and CR LF read as LF (universal newlines). *)
Fixpoint readlines_from (cur : string) (s : string) : list string :=
  match s with
  | "" => match cur with "" => [] | _ => [cur] end
  | String c s' =>
      if Ascii.eqb c LF then (cur +:+ String LF "") :: readlines_from "" s'
      else if Ascii.eqb c CR then
        match s' with
        | String c' s'' =>
            if Ascii.eqb c' LF
            then (cur +:+ String LF "") :: readlines_from "" s''
            else (cur +:+ String LF "") :: readlines_from "" s'
        | "" => [cur +:+ String LF ""]
        end
      else readlines_from (cur +:+ String c "") s'
  end.

Definition readlines (s : string) : list string := readlines_from "" s.

End Py.

(** The line feed as a one-character string. *)
Definition nl : string := String Py.LF "".

(** ** Exceptions and results *)

(** The exception classes the program can meet.  Every one of them derives
    from [Exception], the root of the model. *)
Inductive exc_class :=
  | Exception
  | TypeError | AttributeError | ValueError | JSONDecodeError
  | UnicodeDecodeError
  | OSError | FileNotFoundError | PermissionError | IsADirectoryError
  | RequestException | ConnectionError | ReadTimeout
  | SubprocessError | TimeoutExpired
  | DNSException | NXDOMAIN | NoAnswer | NoNameservers | LifetimeTimeout.

Global Instance exc_class_eq_dec : EqDecision exc_class.
Proof. solve_decision. Defined.

(** The direct base class. *)
Definition base_class (c : exc_class) : option exc_class :=
  match c with
  | Exception => None
  | JSONDecodeError | UnicodeDecodeError => Some ValueError
  | FileNotFoundError | PermissionError | IsADirectoryError => Some OSError
  | RequestException => Some OSError
  | ConnectionError | ReadTimeout => Some RequestException
  | TimeoutExpired => Some SubprocessError
  | NXDOMAIN | NoAnswer | NoNameservers | LifetimeTimeout => Some DNSException
  | _ => Some Exception
  end.

Fixpoint issubclass_upto (fuel : nat) (c d : exc_class) : bool :=
  if decide (c = d) then true
  else match fuel, base_class c with
       | S fuel', Some b => issubclass_upto fuel' b d
       | _, _ => false
       end.

(** [issubclass(c, d)]; the hierarchy is four levels deep. *)
Definition issubclass (c d : exc_class) : bool := issubclass_upto 4 c d.

Global Arguments issubclass : simpl never.

(** A raised exception: its class and [str(e)]. *)
Record exn := Exn { exn_class : exc_class; exn_str : string }.

Inductive result (A : Type) :=
  | Ok (a : A)
  | Raise (e : exn).
Arguments Ok {A} a.
Arguments Raise {A} e.

(** ** JSON values, as [response.json()] returns them *)

Local Unset Elimination Schemes.
Inductive pyjson :=
  | JNull
  | JBool (b : bool)
  | JInt (z : Z)
  | JFloat (repr : string)
  | JStr (s : string)
  | JList (items : list pyjson)
  | JDict (items : list (string * pyjson)).
Local Set Elimination Schemes.

Definition type_name (v : pyjson) : string :=
  match v with
  | JNull => "NoneType" | JBool _ => "bool" | JInt _ => "int"
  | JFloat _ => "float" | JStr _ => "str" | JList _ => "list"
  | JDict _ => "dict"
  end.

(** [d.get(key, default)] on the pairs of a JSON object: a repeated key
    keeps its last value. *)
Fixpoint dict_get (items : list (string * pyjson)) (key : string)
    (default : pyjson) : pyjson :=
  match items with
  | [] => default
  | (k, v) :: rest =>
      if String.eqb k key
      then dict_get rest key v
      else dict_get rest key default
  end.

(** The characters of a string, each a string of its own. *)
Fixpoint chars (s : string) : list string :=
  match s with
  | "" => []
  | String c s' => String c "" :: chars s'
  end.

(** [for entry in data]: the values the loop will see. *)
Definition py_iter (data : pyjson) : result (list pyjson) :=
  match data with
  | JList items => Ok items
  | JDict items => Ok (JStr <$> (fst <$> items))
  | JStr s => Ok (JStr <$> chars s)
  | v => Raise (Exn TypeError
                  ("'" +:+ type_name v +:+ "' object is not iterable"))
  end.

(** [entry.get(key, default)]: only a dict has the method. *)
Definition py_get (entry : pyjson) (key : string) (default : pyjson)
    : result pyjson :=
  match entry with
  | JDict items => Ok (dict_get items key default)
  | v => Raise (Exn AttributeError
                  ("'" +:+ type_name v +:+ "' object has no attribute 'get'"))
  end.

(** [nv.split(sep)]: only a str has the method. *)
Definition py_split (nv : pyjson) (sep : ascii) : result (list string) :=
  match nv with
  | JStr s => Ok (Py.split sep s)
  | v => Raise (Exn AttributeError
                  ("'" +:+ type_name v +:+ "' object has no attribute 'split'"))
  end.

(** ** The outside world *)

(** A file: its text, or the error that opening it for reading raises. *)
Inductive file :=
  | Text (content : string)
  | NoAccess (e : exn).

Abbreviation filesystem := (gmap string file).

Record response := Response { status_code : Z; json : result pyjson }.

Record completed_process := Completed { stdout : string }.

(** The oracles of a run: what the network, the external tool, the DNS
    and the clock answer. *)
Record Env := {
  (** [requests.get(url, timeout=..)] *)
  requests_get : string -> result response;
  (** [subprocess.run(argv, capture_output=True, text=True, timeout=..)]:
      the tool may leave files behind. *)
  subprocess_run :
    list string -> filesystem -> result completed_process * filesystem;
  (** [dns.resolver.Resolver()], which reads the resolver configuration
      of the system *)
  resolver_new : result unit;
  (** the [k]-th [resolver.resolve(qname, "A", lifetime=..)] of a probe;
      the answer itself is never read. *)
  dns_resolve : nat -> string -> result unit;
  (** the seconds of the [k]-th [datetime.utcnow()] *)
  utcnow : nat -> nat;
}.

(** What a probe does to the outside world. *)
Inductive event :=
  | EvHttpGet (url : string) (timeout : nat)
  | EvExists (path : string)
  | EvSpawn (argv : list string) (timeout : nat)
  | EvOpen (path : string)
  | EvResolve (qname rdtype : string) (lifetime : nat).

Record machine := Machine {
  fs : filesystem;
  trace : list event;
  lookups : nat;
}.

Definition emit (ev : event) (m : machine) : machine :=
  Machine (fs m) (trace m ++ [ev]) (lookups m).

(** ** The monad of the probes: state, trace and exceptions *)

Definition M (A : Type) : Type := machine -> result A * machine.

Global Instance M_ret : MRet M := fun A a m => (Ok a, m).

Global Instance M_bind : MBind M := fun A B f c m =>
  match c m with
  | (Ok a, m') => f a m'
  | (Raise e, m') => (Raise e, m')
  end.

Definition lift {A} (r : result A) : M A := fun m => (r, m).

(** [try: body / except cls as e: handler] *)
Definition try_except {A} (cls : exc_class) (body : M A)
    (handler : exn -> M A) : M A := fun m =>
  match body m with
  | (Ok a, m') => (Ok a, m')
  | (Raise e, m') =>
      if issubclass (exn_class e) cls then handler e m' else (Raise e, m')
  end.

(** [for x in xs: acc = body x acc] *)
Fixpoint for_each {A S} (xs : list A) (body : A -> S -> M S) (acc : S)
    : M S :=
  match xs with
  | [] => mret acc
  | x :: rest => acc' ← body x acc; for_each rest body acc'
  end.

Section Probes.

Context (env : Env).

Definition http_get (url : string) (timeout : nat) : M response :=
  fun m => (requests_get env url, emit (EvHttpGet url timeout) m).

(** [os.path.exists(path)] *)
Definition path_exists (path : string) : M bool :=
  fun m => (Ok (bool_decide (is_Some (fs m !! path))),
            emit (EvExists path) m).

Definition run_process (argv : list string) (timeout : nat)
    : M completed_process :=
  fun m =>
    let '(r, fs') := subprocess_run env argv (fs m) in
    (r, Machine fs' (trace m ++ [EvSpawn argv timeout]) (lookups m)).

(** [open(path, "r")] and the lines the file object yields: a file that
    opens is read to its end. *)
Definition open_read (path : string) : M (list string) :=
  fun m =>
    (match fs m !! path with
     | None =>
         Raise (Exn FileNotFoundError
                  ("[Errno 2] No such file or directory: '"
                   +:+ path +:+ "'"))
     | Some (NoAccess e) => Raise e
     | Some (Text content) => Ok (Py.readlines content)
     end, emit (EvOpen path) m).

Definition resolve (qname rdtype : string) (lifetime : nat) : M unit :=
  fun m =>
    (dns_resolve env (lookups m) qname,
     Machine (fs m) (trace m ++ [EvResolve qname rdtype lifetime])
             (S (lookups m))).

(** [[l.strip() for l in lines if l.strip()]] *)
Definition stripped_nonblank (lines : list string) : list string :=
  filter (fun l => Is_true (Py.truthy l)) (Py.strip <$> lines).

(** *** crt.sh *)

Definition crtsh_url (domain : string) : string :=
  "https://crt.sh/?q=%25." +:+ domain +:+ "&output=json".

(** The inner loop: every stripped, non-empty piece joins the set. *)
Definition add_names (pieces : list string) (results : gset string)
    : gset string :=
  foldl (fun acc n =>
           let n := Py.strip n in
           if Py.truthy n then acc ∪ {[ n ]} else acc)
        results pieces.

Definition get_subdomains_crtsh (domain : string) : M (list string) :=
  let url := crtsh_url domain in
  try_except Exception
    (r ← http_get url 15;
     if negb (status_code r =? 200)%Z then mret []
     else
       data ← lift (json r);
       entries ← lift (py_iter data);
       results ← for_each entries
         (fun entry results =>
            nv ← lift (py_get entry "name_value" (JStr ""));
            pieces ← lift (py_split nv Py.LF);
            mret (add_names pieces results))
         ∅;
       mret (elements results))
    (fun _ => mret []).

(** *** Sublist3r *)

Definition get_subdomains_sublister (domain : string) : M (list string) :=
  let script_path := "Sublist3r/sublist3r.py" in
  present ← path_exists script_path;
  if negb present then mret []
  else
    try_except Exception
      (result ← run_process
         ["python"; script_path; "-d"; domain; "-o"; "subdomains.txt"] 120;
       written ← path_exists "subdomains.txt";
       if (written : bool) then
         (lines ← open_read "subdomains.txt";
          mret (stripped_nonblank lines))
       else
         mret (stripped_nonblank (Py.splitlines (stdout result))))
      (fun _ => mret []).

(** *** Brute force *)

(** The body of the loop over the lines of the wordlist. *)
Definition try_label (domain line : string) (found : list string)
    : M (list string) :=
  let sub := Py.strip line in
  if negb (Py.truthy sub) then mret found
  else
    let full := sub +:+ "." +:+ domain in
    try_except Exception
      (_ ← resolve full "A" 3;
       mret (found ++ [full]))
      (fun _ => mret found).

(** The resolver is made before the [try].  Only [open] can raise out of
    the outer [try], before anything was appended: the handler leaves
    [found] empty. *)
Definition brute_force_subdomains (domain : string) (wordlist : string)
    : M (list string) :=
  _ ← lift (resolver_new env);
  try_except FileNotFoundError
    (lines ← open_read wordlist;
     for_each lines (try_label domain) [])
    (fun _ => mret []).

Definition default_wordlist : string := "common_subdomains.txt".

End Probes.

(** ** The dashboard: session state, log and scan block *)

Inductive probe := Crtsh | Sublister | Brute.

Definition run_probe (env : Env) (p : probe) (domain : string)
    : M (list string) :=
  match p with
  | Crtsh => get_subdomains_crtsh env domain
  | Sublister => get_subdomains_sublister env domain
  | Brute => brute_force_subdomains env domain default_wordlist
  end.

(** The objects handed to [executor.submit]. *)
Inductive pyobj :=
  | PyFunc (p : probe)
  | PyStr (s : string)
  | PyTuple2 (a b : pyobj).

Definition pyobj_type_name (v : pyobj) : string :=
  match v with
  | PyFunc _ => "function" | PyStr _ => "str" | PyTuple2 _ _ => "tuple"
  end.

(** [concurrent.futures.Future]: all the main thread ever reads of it is
    what [result()] returns or raises. *)
Record future := Future { outcome : result (list string) }.

(** What the dashboard draws besides the session state.  [ProgressSet]
    keeps [done] and [total_tasks], from which the percentage is then
    computed in floating point. *)
Inductive ui_call :=
  | SidebarError (msg : string)
  | ProgressNew (value : nat)
  | ProgressSet (done total : nat)
  | ProgressEmpty
  | Success (msg : string).

(** [st.session_state] with the clock reads and the widget calls so far. *)
Record app := App {
  results : gset string;
  logs : list string;
  ticks : nat;
  drawn : list ui_call;
}.

Definition set_results (r : gset string) (a : app) : app :=
  App r (logs a) (ticks a) (drawn a).
Definition set_logs (l : list string) (a : app) : app :=
  App (results a) l (ticks a) (drawn a).
Definition draw (c : ui_call) (a : app) : app :=
  App (results a) (logs a) (ticks a) (drawn a ++ [c]).

Definition digit (d : nat) : ascii := ascii_of_nat (48 + d).

(** Two digits, zero padded ([%H], [%M], [%S]). *)
Definition pad2 (n : nat) : string :=
  String (digit (n `div` 10)) (String (digit (n `mod` 10)) "").

(** [strftime("%H:%M:%S")] of a time given in seconds. *)
Definition strftime_HMS (t : nat) : string :=
  pad2 ((t `div` 3600) `mod` 24) +:+ ":" +:+ pad2 ((t `div` 60) `mod` 60)
  +:+ ":" +:+ pad2 (t `mod` 60).

Definition log_line (timestamp msg : string) : string :=
  "[" +:+ timestamp +:+ " UTC] " +:+ msg.

(** The values of the sidebar widgets the scan reads.  The slider of the
    pool size (1 to 10) only bounds how many probes run at once, which
    the oracle of the futures covers. *)
Record controls := Controls {
  domains_input : string;
  use_crtsh : bool;
  use_sublister : bool;
  use_brute : bool;
  run_button : bool;
}.

(** [(1 if use_crtsh else 0) + (1 if use_sublister else 0)
     + (1 if use_brute else 0)] *)
Definition enabled_probes (c : controls) : nat :=
  (if use_crtsh c then 1 else 0) + (if use_sublister c then 1 else 0)
  + (if use_brute c then 1 else 0).

(** The local variables of the scan block when it ends. *)
Record scan_end := ScanEnd {
  final : app;
  futures : list future;
  tasks : list (string * string * future);
  total_tasks : nat;
  done : nat;
}.

Section Dashboard.

Context (env : Env).

(** What the [i]-th call a pool runs returns or raises.  The probes run
    on worker threads, so their interleaving is left to this oracle. *)
Context (invoke : nat -> probe -> string -> result (list string)).

Definition log (msg : string) (a : app) : app :=
  let timestamp := strftime_HMS (utcnow env (ticks a)) in
  App (results a) (logs a ++ [log_line timestamp msg]) (S (ticks a))
      (drawn a).

(** The call of [fn] with [args] on a worker.  Calling anything but a
    function raises [TypeError]; a probe is only ever called with one
    domain, and any other call of it is given a [TypeError] too. *)
Definition py_call (i : nat) (fn : pyobj) (args : list pyobj)
    : result (list string) :=
  match fn, args with
  | PyFunc p, [PyStr domain] => invoke i p domain
  | PyFunc _, _ =>
      Raise (Exn TypeError "wrong positional arguments")
  | v, _ =>
      Raise (Exn TypeError
               ("'" +:+ pyobj_type_name v +:+ "' object is not callable"))
  end.

(** [executor.submit(fn, *args)] never raises: the call happens on a
    worker and what it raises is kept in the future.  [i] counts the
    earlier submissions to the same pool. *)
Definition submit (i : nat) (fn : pyobj) (args : list pyobj) : future :=
  Future (py_call i fn args).

Section Scan.

Context (domains : list string) (c : controls).

(** The body of the first scheduling loop: a tuple is submitted as
    the callable. *)
Definition first_block_step (futures : list future) (domain : string)
    : list future :=
  let futures :=
    if use_crtsh c then
      futures ++ [submit (List.length futures)
                    (PyTuple2 (PyStr "crtsh") (PyStr domain))
                    [PyFunc Crtsh; PyStr domain]]
    else futures in
  let futures :=
    if use_sublister c then
      futures ++ [submit (List.length futures)
                    (PyTuple2 (PyStr "sublister") (PyStr domain))
                    [PyFunc Sublister; PyStr domain]]
    else futures in
  let futures :=
    if use_brute c then
      futures ++ [submit (List.length futures)
                    (PyTuple2 (PyStr "brute") (PyStr domain))
                    [PyFunc Brute; PyStr domain]]
    else futures in
  futures.

(** The first [with ThreadPoolExecutor] block. *)
Definition first_block : list future :=
  foldl first_block_step [] domains.

(** The body of the second scheduling loop. *)
Definition build_tasks_step (st : list (string * string * future) * nat)
    (domain : string) : list (string * string * future) * nat :=
  let '(tasks, total_tasks) := st in
  let '(tasks, total_tasks) :=
    if use_crtsh c then
      (tasks ++ [("crtsh", domain,
                  submit (List.length tasks) (PyFunc Crtsh)
                    [PyStr domain])],
       total_tasks + 1)
    else (tasks, total_tasks) in
  let '(tasks, total_tasks) :=
    if use_sublister c then
      (tasks ++ [("sublister", domain,
                  submit (List.length tasks) (PyFunc Sublister)
                    [PyStr domain])],
       total_tasks + 1)
    else (tasks, total_tasks) in
  let '(tasks, total_tasks) :=
    if use_brute c then
      (tasks ++ [("brute", domain,
                  submit (List.length tasks) (PyFunc Brute)
                    [PyStr domain])],
       total_tasks + 1)
    else (tasks, total_tasks) in
  (tasks, total_tasks).

(** "build task list properly" *)
Definition build_tasks : list (string * string * future) * nat :=
  foldl build_tasks_step ([], 0) domains.

(** One turn of the loop over [tasks].  [except Exception] catches
    whatever [fut.result()] raises. *)
Definition collect (total_tasks : nat) (st : app * nat)
    (task : string * string * future) : app * nat :=
  let '(a, done) := st in
  let '(label, domain, fut) := task in
  let '(result, a) :=
    match outcome fut with
    | Ok result => (result, a)
    | Raise e =>
        ([], log ("ERROR " +:+ label +:+ " " +:+ domain +:+ ": "
                  +:+ exn_str e) a)
    end in
  let a :=
    match result with
    | _ :: _ =>
        let added_before := size (results a) in
        let a := set_results (results a ∪ list_to_set result) a in
        let added_after := size (results a) in
        let new := added_after - added_before in
        log ("[" +:+ label +:+ "] " +:+ domain +:+ " -> "
             +:+ pretty new +:+ " new subdomains") a
    | [] => log ("[" +:+ label +:+ "] " +:+ domain +:+ " -> 0") a
    end in
  let done := done + 1 in
  (draw (ProgressSet done total_tasks) a, done).

(** The [else] branch of [if not domains]. *)
Definition scan (a : app) : scan_end :=
  let a := set_results ∅ a in
  let a := set_logs [] a in
  let total_tasks := List.length domains * enabled_probes c in
  let a := draw (ProgressNew 0) a in
  let a := log "Scan started" a in
  let futures := first_block in
  let a := set_logs [] a in
  let a := set_results ∅ a in
  let '(tasks, total_tasks) := build_tasks in
  let '(a, done) := foldl (collect total_tasks) (a, 0) tasks in
  let a := draw ProgressEmpty a in
  let a := log "Scan completed" a in
  let a := draw (Success "Scan finished!") a in
  ScanEnd a futures tasks total_tasks done.

(** The scan block with the first [with] block (the [futures] list
    and its submissions) taken out. *)
Definition scan_second_block_only (a : app) : scan_end :=
  let a := set_results ∅ a in
  let a := set_logs [] a in
  let a := draw (ProgressNew 0) a in
  let a := log "Scan started" a in
  let a := set_logs [] a in
  let a := set_results ∅ a in
  let '(tasks, total_tasks) := build_tasks in
  let '(a, done) := foldl (collect total_tasks) (a, 0) tasks in
  let a := draw ProgressEmpty a in
  let a := log "Scan completed" a in
  let a := draw (Success "Scan finished!") a in
  ScanEnd a [] tasks total_tasks done.

End Scan.

(** [[d.strip() for d in domains_input.splitlines() if d.strip()]] *)
Definition parse_domains (text : string) : list string :=
  stripped_nonblank (Py.splitlines text).

(** One run of the script as far as the scan is concerned. *)
Definition rerun (c : controls) (a : app) : app :=
  let domains := parse_domains (domains_input c) in
  if run_button c then
    match domains with
    | [] => draw (SidebarError "Please enter at least one domain.") a
    | _ => final (scan domains c a)
    end
  else a.

End Dashboard.

(** ** Export *)

Module Csv.

Definition COMMA : ascii := ","%char.
Definition DQUOTE : ascii := "034"%char.

(** Whether [c] occurs in [s]. *)
Fixpoint occurs (c : ascii) (s : string) : bool :=
  match s with
  | "" => false
  | String c' rest => Ascii.eqb c c' || occurs c rest
  end.

(** The characters that force [csv.QUOTE_MINIMAL] to quote a field: the
    delimiter, the quote character and the characters of the line
    terminator.  With LF as the line terminator a carriage return is
    written as it is. *)
Definition special (lineterminator : string) (c : ascii) : bool :=
  Ascii.eqb c COMMA || Ascii.eqb c DQUOTE || occurs c lineterminator.

Fixpoint needs_quotes (lineterminator : string) (field : string) : bool :=
  match field with
  | "" => false
  | String c rest =>
      special lineterminator c || needs_quotes lineterminator rest
  end.

(** [doublequote=True]: a quote character inside a field is written
    twice. *)
Fixpoint double_quotes (field : string) : string :=
  match field with
  | "" => ""
  | String c rest =>
      if Ascii.eqb c DQUOTE
      then String DQUOTE (String DQUOTE (double_quotes rest))
      else String c (double_quotes rest)
  end.

Definition quote_minimal (lineterminator : string) (field : string)
    : string :=
  if needs_quotes lineterminator field
  then String DQUOTE (double_quotes field +:+ String DQUOTE "")
  else field.

Fixpoint join (sep : ascii) (fields : list string) : string :=
  match fields with
  | [] => ""
  | [field] => field
  | field :: rest => field +:+ String sep (join sep rest)
  end.

(** [writer.writerow(fields)]; a record made of one empty field is
    written as two quote characters. *)
Definition writerow (lineterminator : string) (fields : list string)
    : string :=
  match fields with
  | [ "" ] => String DQUOTE (String DQUOTE lineterminator)
  | _ =>
      join COMMA (quote_minimal lineterminator <$> fields)
      +:+ lineterminator
  end.

(** [df.to_csv(fname, index=False)] for a frame of one column of
    strings: the header record, then one record per value, each ended by
    [os.linesep]. *)
Definition to_csv (linesep : string) (column : string)
    (values : list string) : string :=
  writerow linesep [column]
  +:+ foldr (λ v rest, writerow linesep [v] +:+ rest) "" values.

(** [os.linesep] is LF or CR LF. *)
Definition crlf : string := String Py.CR nl.

Definition is_linesep (linesep : string) : Prop :=
  linesep = nl ∨ linesep = crlf.




End Csv.

Section Exporter.

(** [os.linesep] *)
Context (linesep : string).

(** [df.to_json(fname, orient="records")], which no property here looks
    into. *)
Context (to_json_records : string → list string → string).

Definition save_results_file (subdomains : gset string) (fmt : string)
    (files : filesystem) : string * filesystem :=
  let df := elements subdomains in
  let fname := "subdomains_found." +:+ fmt in
  if String.eqb fmt "csv"
  then (fname, <[fname := Text (Csv.to_csv linesep "Subdomain" df)]> files)
  else (fname, <[fname := Text (to_json_records "Subdomain" df)]> files).

End Exporter.

(** ** Scenarios *)

(** An environment whose only live oracle is crt.sh. *)
Definition env_crtsh (answer : result response) : Env :=
  {| requests_get := fun _ => answer;
     subprocess_run := fun _ files => (Raise (Exn OSError "no tool"), files);
     resolver_new := Ok ();
     dns_resolve := fun _ _ => Raise (Exn NXDOMAIN "no such name");
     utcnow := fun k => k |}.

(** An environment in which only [www.x.com] resolves. *)
Definition env_dns : Env :=
  {| requests_get := fun _ => Raise (Exn ConnectionError "unreachable");
     subprocess_run := fun _ files => (Raise (Exn OSError "no tool"), files);
     resolver_new := Ok ();
     dns_resolve := fun _ qname =>
       if String.eqb qname "www.x.com" then Ok ()
       else Raise (Exn NXDOMAIN "no such name");
     utcnow := fun k => k |}.

Definition mocked_response : response :=
  Response 200
    (Ok (JList
           [JDict [("name_value",
                    JStr ("a.example.com" +:+ nl +:+ "b.example.com"))];
            JDict [("name_value", JStr "c.example.com")]])).

Definition trailing_newline_response : response :=
  Response 200
    (Ok (JList [JDict [("name_value", JStr ("a.example.com" +:+ nl))]])).

(** No file at all. *)
Definition boot : machine := Machine ∅ [] 0.

Definition two_words : string := "www" +:+ nl +:+ "mail" +:+ nl.

Definition with_wordlist (f : file) : machine :=
  Machine {[ default_wordlist := f ]} [] 0.

Definition denied : exn :=
  Exn PermissionError "[Errno 13] Permission denied: 'common_subdomains.txt'".

(** The futures of a scan whose probes all see the machine [m]. *)
Definition invoke_on (env : Env) (m : machine)
    : nat → probe → string → result (list string) :=
  fun _ p domain => (run_probe env p domain m).1.

Definition fresh : app := App ∅ [] 0 [].

Definition brute_only (text : string) : controls :=
  Controls text false false true true.


(** Whether [fut.result()] raises. *)
Definition failed (task : string * string * future) : bool :=
  match outcome task.2 with
  | Raise _ => true
  | Ok _ => false
  end.

(** The names whose lookup succeeds when the [k]-th lookup of the probe
    is for the first of [labels]. *)
Fixpoint resolved_names (env : Env) (domain : string) (k : nat)
    (labels : list string) : list string :=
  match labels with
  | [] => []
  | label :: rest =>
      let full := label +:+ "." +:+ domain in
      match dns_resolve env k full with
      | Ok _ => full :: resolved_names env domain (S k) rest
      | Raise _ => resolved_names env domain (S k) rest
      end
  end.

(** The set the specification describes for the [name_value] fields of
    a response: split on newlines, trim every piece, deduplicate. *)
Definition crtsh_as_specified (name_values : list string) : gset string :=
  list_to_set (Py.strip <$> List.concat (Py.split Py.LF <$> name_values)).

(** What a future holds when a tuple was submitted as the callable. *)
Definition tuple_call_error : exn :=
  Exn TypeError "'tuple' object is not callable".

(** No line of [lines] carries the message [Scan started]. *)
Definition no_start_marker (lines : list string) : Prop :=
  ∀ t, log_line (strftime_HMS t) "Scan started" ∉ lines.

(** ** What the scan block is compared with *)

(** The names a task hands to the result set: those its future returned,
    none when it raised. *)
Definition returned (task : string * string * future) : list string :=
  match outcome task.2 with
  | Ok names => names
  | Raise _ => []
  end.

(** The probes the checkboxes enable, in the order the loop submits them,
    each with its label. *)
Definition enabled (c : controls) : list (string * probe) :=
  (if use_crtsh c then [("crtsh", Crtsh)] else [])
  ++ (if use_sublister c then [("sublister", Sublister)] else [])
  ++ (if use_brute c then [("brute", Brute)] else []).

(** The plan of a scan: for every domain in turn, every enabled probe. *)
Definition plan (domains : list string) (c : controls)
    : list (string * probe * string) :=
  domain ← domains; (λ lp, (lp.1, lp.2, domain)) <$> enabled c.

(** The body of the loop over the entries of a response. *)
Definition crtsh_entry (entry : pyjson) (results : gset string)
    : M (gset string) :=
  nv ← lift (py_get entry "name_value" (JStr ""));
  pieces ← lift (py_split nv Py.LF);
  mret (add_names pieces results).


(** The command line of Sublist3r for [domain]. *)
Definition sublister_argv (domain : string) : list string :=
  ["python"; "Sublist3r/sublist3r.py"; "-d"; domain; "-o"; "subdomains.txt"].

(** An environment whose external tool ends as [out] and leaves [written]
    as its output file, when it leaves one. *)
Definition env_tool (out : result completed_process) (written : option file)
    : Env :=
  {| requests_get := fun _ => Raise (Exn ConnectionError "unreachable");
     subprocess_run := fun _ files =>
       (out, match written with
             | Some f => <[ "subdomains.txt" := f ]> files
             | None => files
             end);
     resolver_new := Ok ();
     dns_resolve := fun _ _ => Raise (Exn NXDOMAIN "no such name");
     utcnow := fun k => k |}.

(** A machine that holds the Sublist3r script and nothing else. *)
Definition with_script : machine :=
  Machine {[ "Sublist3r/sublist3r.py" := Text "" ]} [] 0.

(** An environment without a resolver configuration. *)
Definition no_resolver : exn :=
  Exn DNSException
      "Resolver configuration could not be read or specified no nameservers.".

Definition env_no_resolver : Env :=
  {| requests_get := fun _ => Raise (Exn ConnectionError "unreachable");
     subprocess_run := fun _ files => (Raise (Exn OSError "no tool"), files);
     resolver_new := Raise no_resolver;
     dns_resolve := fun _ _ => Ok ();
     utcnow := fun k => k |}.

(** The task of the plan's [i]-th entry: its label, its domain and the
    future of the [i]-th submission. *)
Definition task_of (invoke : nat → probe → string → result (list string))
    (i : nat) (entry : string * probe * string)
    : string * string * future :=
  (entry.1.1, entry.2, Future (invoke i entry.1.2 entry.2)).

(** ** Taking the records of an export apart

    A decoder of the writer's own format, with which the export is
    shown to be injective; the program has no such function. *)

(** [s] without its prefix [p], when it starts with it. *)
Fixpoint strip_prefix (p s : string) : option string :=
  match p with
  | "" => Some s
  | String a p' =>
      match s with
      | String b s' => if Ascii.eqb a b then strip_prefix p' s' else None
      | "" => None
      end
  end.

(** An unquoted field runs up to the next line terminator, and only a
    line terminator ends it. *)
Fixpoint take_bare (linesep acc s : string) : option (string * string) :=
  match strip_prefix linesep s with
  | Some rest => Some (acc, rest)
  | None =>
      match s with
      | "" => None
      | String c s' => take_bare linesep (acc +:+ String c "") s'
      end
  end.

(** A quoted field runs up to the quote character that is not doubled,
    after which the line terminator comes. *)
Fixpoint take_quoted (linesep acc s : string) : option (string * string) :=
  match s with
  | "" => None
  | String c s' =>
      if Ascii.eqb c Csv.DQUOTE then
        match s' with
        | String c' s'' =>
            if Ascii.eqb c' Csv.DQUOTE
            then take_quoted linesep (acc +:+ String Csv.DQUOTE "") s''
            else match strip_prefix linesep s' with
                 | Some rest => Some (acc, rest)
                 | None => None
                 end
        | "" => None
        end
      else take_quoted linesep (acc +:+ String c "") s'
  end.

(** The first one-field record of [s] and what follows it, in the
    format of the writer with [linesep] as line terminator. *)
Definition take_record (linesep s : string) : option (string * string) :=
  match s with
  | "" => None
  | String c s' =>
      if Ascii.eqb c Csv.DQUOTE then take_quoted linesep "" s'
      else take_bare linesep "" s
  end.

(** A hostname with a carriage return inside, as crt.sh can return it. *)
Definition cr_name : string := "a" +:+ String Py.CR "b".

(** Whether some character of [s] satisfies [p]. *)
Fixpoint any_char (p : ascii → bool) (s : string) : bool :=
  match s with
  | "" => false
  | String c rest => p c || any_char p rest
  end.

(** ** The rest of the page: summary, results tab, logs tab *)

(** [s.lower()], for code points below 256. *)
Definition lower_char (c : ascii) : ascii :=
  let n := nat_of_ascii c in
  if (((65 <=? n) && (n <=? 90)) || ((192 <=? n) && (n <=? 214))
      || ((216 <=? n) && (n <=? 222)))%nat
  then ascii_of_nat (n + 32) else c.

Fixpoint py_lower (s : string) : string :=
  match s with
  | "" => ""
  | String c rest => String (lower_char c) (py_lower rest)
  end.

(** [sep.join(items)] *)
Fixpoint py_join (sep : string) (items : list string) : string :=
  match items with
  | [] => ""
  | [item] => item
  | item :: rest => item +:+ sep +:+ py_join sep rest
  end.

(** The order of [str]: by code point, a prefix first. *)
Definition str_le (x y : string) : Prop := String.leb x y = true.

Global Instance str_le_dec : RelDecision str_le.
Proof. intros x y. unfold str_le. apply _. Defined.

Global Instance str_le_total : Total str_le.
Proof. intros x y. apply String.leb_total. Qed.

(** [sorted(names)] *)
Definition py_sorted (names : list string) : list string :=
  merge_sort str_le names.

(** [df.sort_values("Subdomain", ascending=..)] on a column of pairwise
    different strings. *)
Definition sort_values (ascending : bool) (column : list string)
    : list string :=
  if ascending then py_sorted column else reverse (py_sorted column).

(** [logs[-k:]] *)
Definition last_items {A} (k : nat) (l : list A) : list A :=
  drop (List.length l - k) l.

(** What the page shows besides the widgets of the scan block. *)
Inductive widget :=
  | Markdown (body : string)
  | Metric (label : string) (value : nat)
  | Caption (body : string)
  | Dataframe (rows : list string)
  | DownloadButton (label data file_name : string)
  | TextArea (label value : string)
  | Info (body : string).

(** The values of the widgets the tabs read. *)
Record view := View {
  search_term : string;
  sort_asc : bool;
  export_format : string;
}.

(** The summary column. *)
Definition summary (a : app) : list widget :=
  let total_count := size (results a) in
  let last_run :=
    match last (logs a) with
    | Some line => line
    | None => "No runs yet"
    end in
  [ Markdown "<div class='card'><b>Summary</b></div>";
    Metric "Total subdomains found" total_count;
    Caption ("Last log: " +:+ last_run) ].

Definition pre_line (line : string) : widget :=
  Markdown ("<pre style='color:#00ff6a; background:#010101; padding:6px'>"
            +:+ line +:+ "</pre>").

(** The logs tab. *)
Definition logs_tab (a : app) : list widget :=
  Markdown "### Logs (live)"
  :: match logs a with
     | [] => [Info "No logs yet. Run a scan to see live logs here."]
     | _ => pre_line <$> reverse (last_items 500 (logs a))
     end.

Section Page.

Context (linesep : string).
Context (to_json_records : string → list string → string).

(** [Series.str.contains(pattern, case=False, na=False)]: the pattern is
    a regular expression, which may fail to compile. *)
Context (str_contains : string → result (string → bool)).

(** [df[df["Subdomain"].str.contains(search_term, case=False, na=False)]]
    when there is a search term. *)
Definition filter_rows (v : view) (df : list string) : result (list string) :=
  if Py.truthy (search_term v) then
    match str_contains (search_term v) with
    | Ok matches => Ok (filter (λ name, Is_true (matches name)) df)
    | Raise e => Raise e
    end
  else Ok df.

(** The results tab: the table, the export, the download button and the
    text area, or the note that there is nothing yet.  It gives what it
    drew, the exception that stopped it, if any, and the files. *)
Definition results_tab (v : view) (a : app) (files : filesystem)
    : list widget * option exn * filesystem :=
  let drawn := [Markdown "### Results"] in
  if bool_decide (results a = ∅) then
    (drawn
     ++ [Info "No subdomains found yet. Start a scan to populate results."],
     None, files)
  else
    let df := elements (results a) in
    match filter_rows v df with
    | Raise e => (drawn, Some e, files)
    | Ok df =>
        let df := sort_values (sort_asc v) df in
        let drawn := drawn ++ [Dataframe df] in
        let '(fname, files) :=
          save_results_file linesep to_json_records (results a)
            (py_lower (export_format v)) files in
        match files !! fname with
        | None =>
            (drawn,
             Some (Exn FileNotFoundError
                     ("[Errno 2] No such file or directory: '"
                      +:+ fname +:+ "'")), files)
        | Some (NoAccess e) => (drawn, Some e, files)
        | Some (Text data) =>
            (drawn
             ++ [ DownloadButton " Download results" data fname;
                  Markdown "**Copy results (select & copy):**";
                  TextArea "All subdomains (select then copy)"
                    (py_join nl (py_sorted (elements (results a)))) ],
             None, files)
        end
    end.

Context (env : Env).
Context (invoke : nat → probe → string → result (list string)).

(** One run of the script, in the order of the file: the summary, the
    scan block, the results tab and, unless an exception stopped the
    script, the logs tab.  The style sheet, the header and the About tab,
    which show fixed text, are left out. *)
Definition page (c : controls) (v : view) (a : app) (files : filesystem)
    : list widget * option exn * app * filesystem :=
  let top := summary a in
  let a := rerun env invoke c a in
  let '(tab, stopped, files) := results_tab v a files in
  match stopped with
  | Some e => (top ++ tab, Some e, a, files)
  | None => (top ++ tab ++ logs_tab a, None, a, files)
  end.

End Page.

(** A stand-in for the pattern matcher: [(] does not compile, any other
    pattern is looked for as it is written, whatever the case. *)
Definition plain_contains (pattern : string) : result (string → bool) :=
  if String.eqb pattern "("
  then Raise (Exn Exception
                "missing ), unterminated subpattern at position 0")
  else Ok (λ name,
             match String.index 0 (py_lower pattern) (py_lower name) with
             | Some _ => true
             | None => false
             end).

(** A session that holds two names. *)
Definition two_names : app := App {[ "www.x.com"; "API.x.com" ]} [] 0 [].

(** * Properties *)

(** ** The string primitives on examples *)

Example strip_example : Py.strip ("  www " +:+ nl) = "www".
Proof. reflexivity. Qed.

Example split_example :
  Py.split Py.LF ("a.example.com" +:+ nl +:+ "b.example.com")
  = ["a.example.com"; "b.example.com"].
Proof. reflexivity. Qed.

Example split_trailing_example : Py.split Py.LF ("a" +:+ nl) = ["a"; ""].
Proof. reflexivity. Qed.

Example readlines_example :
  Py.readlines two_words = ["www" +:+ nl; "mail" +:+ nl].
Proof. reflexivity. Qed.

Example splitlines_example :
  Py.splitlines ("x.com" +:+ String Py.CR nl +:+ nl +:+ "y.com")
  = ["x.com"; ""; "y.com"].
Proof. reflexivity. Qed.

Example strftime_example : strftime_HMS 3725 = "01:02:05".
Proof. reflexivity. Qed.

(** ** Running the monad *)

Lemma issubclass_Exception c : issubclass c Exception = true.
Proof. destruct c; reflexivity. Qed.

Lemma stripped_nonblank_cons line lines :
  stripped_nonblank (line :: lines) =
    if Py.truthy (Py.strip line)
    then Py.strip line :: stripped_nonblank lines
    else stripped_nonblank lines.
Proof.
  unfold stripped_nonblank. rewrite fmap_cons, filter_cons.
  by destruct (Py.truthy (Py.strip line)).
Qed.

Lemma truthy_nonempty s : Py.truthy s = true ↔ s ≠ "".
Proof. destruct s; simpl; split; congruence. Qed.

Lemma elem_of_stripped_nonblank label lines :
  label ∈ stripped_nonblank lines ↔
  ∃ line, line ∈ lines ∧ label = Py.strip line ∧ label ≠ "".
Proof.
  unfold stripped_nonblank. rewrite list_elem_of_filter, list_elem_of_fmap.
  rewrite Is_true_true, truthy_nonempty. split.
  - intros [Hne (line & -> & Hin)]. by exists line.
  - intros (line & Hin & -> & Hne). split; [done|by exists line].
Qed.


Lemma bind_run {A B} (c : M A) (f : A → M B) m :
  (c ≫= f) m =
    match c m with
    | (Ok a, m') => f a m'
    | (Raise e, m') => (Raise e, m')
    end.
Proof. reflexivity. Qed.

Lemma ret_run {A} (a : A) m : (mret a : M A) m = (Ok a, m).
Proof. reflexivity. Qed.

Lemma try_except_run {A} cls (body : M A) handler m :
  try_except cls body handler m =
    match body m with
    | (Ok a, m') => (Ok a, m')
    | (Raise e, m') =>
        if issubclass (exn_class e) cls then handler e m' else (Raise e, m')
    end.
Proof. reflexivity. Qed.

Lemma http_get_run env url timeout m :
  http_get env url timeout m
  = (requests_get env url, emit (EvHttpGet url timeout) m).
Proof. reflexivity. Qed.

Lemma lift_run {A} (r : result A) m : lift r m = (r, m).
Proof. reflexivity. Qed.

Lemma for_each_cons {A S} (x : A) xs (body : A → S → M S) acc m :
  for_each (x :: xs) body acc m =
    match body x acc m with
    | (Ok acc', m') => for_each xs body acc' m'
    | (Raise e, m') => (Raise e, m')
    end.
Proof. reflexivity. Qed.

Lemma try_label_run env domain line found m :
  try_label env domain line found m =
    if Py.truthy (Py.strip line) then
      let full := Py.strip line +:+ "." +:+ domain in
      (Ok (match dns_resolve env (lookups m) full with
           | Ok _ => found ++ [full]
           | Raise _ => found
           end),
       Machine (fs m) (trace m ++ [EvResolve full "A" 3]) (S (lookups m)))
    else (Ok found, m).
Proof.
  unfold try_label. destruct (Py.truthy (Py.strip line)); [|reflexivity].
  cbn [negb]. rewrite try_except_run, bind_run. unfold resolve.
  destruct (dns_resolve env (lookups m) _) as [[]|e]; [reflexivity|].
  by rewrite issubclass_Exception.
Qed.

Lemma sweep_run env domain lines : ∀ found m,
  for_each lines (try_label env domain) found m =
    (Ok (found ++ resolved_names env domain (lookups m)
                    (stripped_nonblank lines)),
     Machine (fs m)
       (trace m ++ ((λ l, EvResolve (l +:+ "." +:+ domain) "A" 3)
                      <$> stripped_nonblank lines))
       (lookups m + List.length (stripped_nonblank lines))).
Proof.
  induction lines as [|line lines IH]; intros found m.
  - cbn. rewrite !app_nil_r, Nat.add_0_r. by destruct m.
  - rewrite for_each_cons, try_label_run, stripped_nonblank_cons.
    destruct (Py.truthy (Py.strip line)); [|apply IH].
    cbv beta iota zeta. rewrite IH. cbn [fs trace lookups resolved_names fmap list_fmap length].
    destruct (dns_resolve env (lookups m) _) as [[]|e];
      rewrite <- ?app_assoc; cbn [List.app List.length]; do 2 f_equal; lia.
Qed.

(** ** Strings and the CSV reader *)

Module CsvFacts.
Import Csv.

Lemma append_cons c (s t : string) : String c s +:+ t = String c (s +:+ t).
Proof. reflexivity. Qed.

Lemma append_nil (t : string) : "" +:+ t = t.
Proof. reflexivity. Qed.

Lemma app_assoc_s (a b c : string) : (a +:+ b) +:+ c = a +:+ (b +:+ c).
Proof.
  induction a as [|x a IH]; [reflexivity|].
  by rewrite !append_cons, IH.
Qed.

Lemma app_empty_r (a : string) : a +:+ "" = a.
Proof.
  induction a as [|x a IH]; [reflexivity|]. by rewrite append_cons, IH.
Qed.

Lemma special_false linesep c :
  special linesep c = false →
  Ascii.eqb c COMMA = false ∧ Ascii.eqb c DQUOTE = false
  ∧ occurs c linesep = false.
Proof.
  unfold special. intros H.
  apply orb_false_elim in H as [H Hsep].
  apply orb_false_elim in H as [Hcomma Hquote]. done.
Qed.

Section Reading.

Context (linesep : string) (Hlinesep : is_linesep linesep).





Lemma writerow_single v :
  writerow linesep [v]
  = match v with
    | "" => String DQUOTE (String DQUOTE linesep)
    | _ => quote_minimal linesep v +:+ linesep
    end.
Proof. by destruct v. Qed.




(** *** The writer's own format taken apart *)

Lemma strip_prefix_app p rest : strip_prefix p (p +:+ rest) = Some rest.
Proof.
  induction p as [|a p IH]; [reflexivity|].
  rewrite append_cons. cbn [strip_prefix]. by rewrite Ascii.eqb_refl.
Qed.

(** A character that is not of the line terminator does not start it. *)
Lemma strip_prefix_other c s :
  occurs c linesep = false → strip_prefix linesep (String c s) = None.
Proof.
  intros Hc. destruct Hlinesep as [-> | ->]; cbn [occurs nl crlf] in Hc;
    apply orb_false_elim in Hc as [Hc _]; cbn [strip_prefix nl crlf];
    by rewrite Ascii.eqb_sym, Hc.
Qed.

Lemma take_bare_plain v : ∀ acc rest,
  needs_quotes linesep v = false →
  take_bare linesep acc (v +:+ linesep +:+ rest) = Some (acc +:+ v, rest).
Proof.
  induction v as [|c v IH]; intros acc rest Hplain.
  - rewrite append_nil, app_empty_r.
    destruct (linesep +:+ rest) eqn:Htext; cbn [take_bare];
      rewrite <- Htext, strip_prefix_app; reflexivity.
  - cbn [needs_quotes] in Hplain.
    apply orb_false_elim in Hplain as [Hc Hv].
    apply special_false in Hc as (_ & _ & Hc).
    rewrite append_cons. cbn [take_bare].
    rewrite (strip_prefix_other c _ Hc), (IH _ _ Hv), app_assoc_s.
    reflexivity.
Qed.

Lemma linesep_head : ∃ h t, linesep = String h t ∧ Ascii.eqb h DQUOTE = false.
Proof. destruct Hlinesep as [-> | ->]; by eexists _, _. Qed.

Lemma take_quoted_row v : ∀ acc rest,
  take_quoted linesep acc
    (double_quotes v +:+ String DQUOTE (linesep +:+ rest))
  = Some (acc +:+ v, rest).
Proof.
  destruct linesep_head as (h & t & Hsep & Hh).
  induction v as [|c v IH]; intros acc rest.
  - cbn [double_quotes]. rewrite append_nil, app_empty_r.
    cbn [take_quoted]. change (Ascii.eqb DQUOTE DQUOTE) with true. cbv iota.
    pose proof (strip_prefix_app linesep rest) as Hstrip.
    rewrite Hsep in *. rewrite append_cons in *. by rewrite Hh, Hstrip.
  - cbn [double_quotes]. destruct (Ascii.eqb c DQUOTE) eqn:Hc.
    + apply Ascii.eqb_eq in Hc as ->. rewrite !append_cons.
      cbn [take_quoted]. change (Ascii.eqb DQUOTE DQUOTE) with true.
      cbv iota. rewrite IH, app_assoc_s. reflexivity.
    + rewrite append_cons. cbn [take_quoted]. rewrite Hc.
      rewrite IH, app_assoc_s. reflexivity.
Qed.

(** The first record of what the writer wrote is the first value. *)
Lemma take_record_row v rest :
  take_record linesep (writerow linesep [v] +:+ rest) = Some (v, rest).
Proof.
  rewrite writerow_single. destruct v as [|c v].
  - rewrite !append_cons. cbn [take_record].
    change (Ascii.eqb DQUOTE DQUOTE) with true. cbv iota.
    apply (take_quoted_row "" "" rest).
  - unfold quote_minimal. destruct (needs_quotes linesep (String c v)) eqn:Hq.
    + repeat (rewrite append_cons || rewrite app_assoc_s
              || rewrite append_nil).
      cbn [take_record]. change (Ascii.eqb DQUOTE DQUOTE) with true.
      cbv iota. apply (take_quoted_row (String c v) "" rest).
    + pose proof Hq as Hplain. cbn [needs_quotes] in Hq.
      apply orb_false_elim in Hq as [Hc _].
      apply special_false in Hc as (_ & Hquote & _).
      rewrite app_assoc_s, append_cons. cbn [take_record]. rewrite Hquote.
      rewrite <- append_cons.
      apply (take_bare_plain (String c v) "" rest Hplain).
Qed.

Lemma rows_inj l1 : ∀ l2,
  foldr (λ v rest, writerow linesep [v] +:+ rest) "" l1
  = foldr (λ v rest, writerow linesep [v] +:+ rest) "" l2 →
  l1 = l2.
Proof.
  induction l1 as [|v1 l1 IH]; intros [|v2 l2] Heq; cbn [foldr] in Heq.
  - reflexivity.
  - apply (f_equal (take_record linesep)) in Heq.
    rewrite take_record_row in Heq. discriminate.
  - apply (f_equal (take_record linesep)) in Heq.
    rewrite take_record_row in Heq. discriminate.
  - apply (f_equal (take_record linesep)) in Heq.
    rewrite !take_record_row in Heq. injection Heq as -> Heq.
    by rewrite (IH l2 Heq).
Qed.

(** Different columns give different files. *)
Lemma to_csv_inj column l1 l2 :
  to_csv linesep column l1 = to_csv linesep column l2 → l1 = l2.
Proof.
  unfold to_csv. intros Heq.
  apply (f_equal (take_record linesep)) in Heq.
  rewrite !take_record_row in Heq. injection Heq as Heq.
  by apply rows_inj.
Qed.

End Reading.

End CsvFacts.

(** ** The crt.sh probe *)

Lemma handled_never_raises {A} (body : M A) (fallback : A) m :
  ∃ a, (try_except Exception body (λ _, mret fallback) m).1 = Ok a.
Proof.
  rewrite try_except_run. destruct (body m) as [[a|e] m']; [by exists a|].
  rewrite issubclass_Exception. by exists fallback.
Qed.

(** C6: the crt.sh probe always returns a list; it is the empty one when
    the request raised, when the status is not 200 and when the body does
    not parse. *)
Theorem crtsh_never_raises env domain m :
  (∃ names, (get_subdomains_crtsh env domain m).1 = Ok names)
  ∧ (∀ e, requests_get env (crtsh_url domain) = Raise e →
       (get_subdomains_crtsh env domain m).1 = Ok [])
  ∧ (∀ r, requests_get env (crtsh_url domain) = Ok r →
       status_code r ≠ 200%Z →
       (get_subdomains_crtsh env domain m).1 = Ok [])
  ∧ (∀ r e, requests_get env (crtsh_url domain) = Ok r →
       json r = Raise e →
       (get_subdomains_crtsh env domain m).1 = Ok []).
Proof.
  split; [apply handled_never_raises|].
  unfold get_subdomains_crtsh.
  split; [|split].
  - intros e He. rewrite try_except_run, bind_run, http_get_run, He.
    by rewrite issubclass_Exception.
  - intros r Hr Hstatus.
    rewrite try_except_run, bind_run, http_get_run, Hr.
    by apply Z.eqb_neq in Hstatus as ->.
  - intros r e Hr He.
    rewrite try_except_run, bind_run, http_get_run, Hr.
    destruct (status_code r =? 200)%Z; [|reflexivity]. cbn [negb].
    rewrite bind_run, lift_run, He. by rewrite issubclass_Exception.
Qed.

Lemma add_names_union pieces : ∀ names,
  add_names pieces names = names ∪ list_to_set (stripped_nonblank pieces).
Proof.
  unfold add_names.
  induction pieces as [|p pieces IH]; intros names; cbn [foldl].
  - change (stripped_nonblank []) with (@nil string).
    by rewrite list_to_set_nil, (right_id_L ∅ (∪)).
  - rewrite IH, stripped_nonblank_cons.
    destruct (Py.truthy (Py.strip p)); [|reflexivity].
    rewrite list_to_set_cons. by rewrite (assoc_L (∪)).
Qed.

Lemma stripped_nonblank_app l1 l2 :
  stripped_nonblank (l1 ++ l2) = stripped_nonblank l1 ++ stripped_nonblank l2.
Proof. unfold stripped_nonblank. by rewrite fmap_app, filter_app. Qed.

Lemma crtsh_loop entries : ∀ nvs names m,
  Forall2 (λ entry nv, py_get entry "name_value" (JStr "") = Ok (JStr nv))
          entries nvs →
  for_each entries
    (λ entry results,
       nv ← lift (py_get entry "name_value" (JStr ""));
       pieces ← lift (py_split nv Py.LF);
       mret (add_names pieces results)) names m
  = (Ok (names ∪ list_to_set
                   (stripped_nonblank (List.concat (Py.split Py.LF <$> nvs)))),
     m).
Proof.
  induction entries as [|entry entries IH]; intros nvs names m Hall.
  - apply Forall2_nil_inv_l in Hall as ->.
    change (stripped_nonblank _) with (@nil string).
    by rewrite list_to_set_nil, (right_id_L ∅ (∪)).
  - apply Forall2_cons_inv_l in Hall as (nv & nvs' & Hnv & Hall & ->).
    rewrite for_each_cons, bind_run, lift_run, Hnv, bind_run, lift_run.
    cbn [py_split]. rewrite ret_run, (IH _ _ _ Hall), add_names_union.
    rewrite fmap_cons, concat_cons, stripped_nonblank_app, list_to_set_app_L.
    by rewrite (assoc_L (∪)).
Qed.

Lemma stripped_nonblank_set pieces :
  list_to_set (stripped_nonblank pieces)
  = (list_to_set (Py.strip <$> pieces) : gset string) ∖ {[ "" ]}.
Proof.
  apply set_eq. intros x.
  rewrite elem_of_list_to_set, elem_of_stripped_nonblank.
  rewrite elem_of_difference, elem_of_list_to_set, list_elem_of_fmap.
  rewrite not_elem_of_singleton. split.
  - intros (line & Hin & -> & Hne). split; [by exists line|done].
  - intros [(line & -> & Hin) Hne]. by exists line.
Qed.

(** C5, amended: on a 200 response whose body is a list of objects with
    string [name_value]s the probe returns, without repetition, the
    trimmed pieces of the split fields that are not empty. *)
Theorem crtsh_split_trim_dedup env domain m r entries nvs :
  requests_get env (crtsh_url domain) = Ok r →
  status_code r = 200%Z →
  json r = Ok (JList entries) →
  Forall2 (λ entry nv, py_get entry "name_value" (JStr "") = Ok (JStr nv))
          entries nvs →
  ∃ names,
    (get_subdomains_crtsh env domain m).1 = Ok names
    ∧ NoDup names
    ∧ list_to_set names = crtsh_as_specified nvs ∖ {[ "" ]}.
Proof.
  intros Hr Hstatus Hjson Hall. unfold get_subdomains_crtsh.
  rewrite try_except_run, bind_run, http_get_run, Hr, Hstatus.
  cbn [Z.eqb Pos.eqb negb].
  rewrite bind_run, lift_run, Hjson, bind_run, lift_run. cbn [py_iter].
  rewrite bind_run, (crtsh_loop _ _ _ _ Hall), ret_run. cbn [fst].
  eexists. split; [reflexivity|]. split; [apply NoDup_elements|].
  rewrite list_to_set_elements_L, (left_id_L ∅ (∪)).
  apply stripped_nonblank_set.
Qed.

Lemma crtsh_split_trim_dedup_witness :
  ∃ names,
    (get_subdomains_crtsh (env_crtsh (Ok mocked_response)) "example.com"
       boot).1 = Ok names
    ∧ NoDup names
    ∧ list_to_set names
      = ({[ "a.example.com"; "b.example.com"; "c.example.com" ]}
         : gset string).
Proof.
  destruct (crtsh_split_trim_dedup (env_crtsh (Ok mocked_response))
              "example.com" boot mocked_response
              [JDict [("name_value",
                       JStr ("a.example.com" +:+ nl +:+ "b.example.com"))];
               JDict [("name_value", JStr "c.example.com")]]
              ["a.example.com" +:+ nl +:+ "b.example.com"; "c.example.com"])
    as (names & Hrun & Hnodup & Hset).
  - reflexivity.
  - reflexivity.
  - reflexivity.
  - repeat constructor.
  - exists names. split; [exact Hrun|]. split; [exact Hnodup|].
    rewrite Hset. vm_compute. reflexivity.
Defined.

(** C5 as stated fails: a [name_value] that ends in a newline has an
    empty last piece, which the probe leaves out. *)
Lemma crtsh_drops_blank_pieces :
  ¬ ∃ names,
      (get_subdomains_crtsh (env_crtsh (Ok trailing_newline_response))
         "example.com" boot).1 = Ok names
      ∧ list_to_set names = crtsh_as_specified ["a.example.com" +:+ nl].
Proof.
  intros (names & Hrun & Hset).
  vm_compute in Hrun. injection Hrun as <-.
  assert (Hin : "" ∈ crtsh_as_specified ["a.example.com" +:+ nl]).
  { unfold crtsh_as_specified. apply elem_of_list_to_set.
    apply list_elem_of_In. vm_compute. right; left; reflexivity. }
  rewrite <- Hset in Hin. apply elem_of_list_to_set in Hin.
  apply list_elem_of_In in Hin. cbn in Hin.
  destruct Hin as [Hin|[]]. discriminate.
Qed.

(** One entry whose [name_value] is not a string makes the probe give up
    everything it had collected. *)
Example crtsh_malformed_entry :
  (get_subdomains_crtsh
     (env_crtsh
        (Ok (Response 200
               (Ok (JList [JDict [("name_value", JStr "a.example.com")];
                           JDict [("name_value", JNull)]])))))
     "example.com" boot).1 = Ok [].
Proof. vm_compute. reflexivity. Qed.

(** ** The Sublist3r probe *)

(** C7: without the Sublist3r script the probe answers the empty list
    after the one existence check: nothing is spawned, nothing raised. *)
Theorem sublister_absent_script env domain m :
  fs m !! "Sublist3r/sublist3r.py" = None →
  get_subdomains_sublister env domain m
  = (Ok [], emit (EvExists "Sublist3r/sublist3r.py") m).
Proof.
  intros Hfile. unfold get_subdomains_sublister.
  rewrite bind_run. unfold path_exists. rewrite Hfile.
  rewrite bool_decide_eq_false_2; [reflexivity|]. by intros [? ?].
Qed.

Lemma sublister_absent_script_witness :
  get_subdomains_sublister env_dns "x.com" boot
  = (Ok [], emit (EvExists "Sublist3r/sublist3r.py") boot).
Proof.
  apply (sublister_absent_script env_dns "x.com" boot).
  vm_compute. reflexivity.
Defined.

(** ** The brute-force probe *)

Lemma open_read_run path m :
  open_read path m =
    (match fs m !! path with
     | None =>
         Raise (Exn FileNotFoundError
                  ("[Errno 2] No such file or directory: '"
                   +:+ path +:+ "'"))
     | Some (NoAccess e) => Raise e
     | Some (Text content) => Ok (Py.readlines content)
     end, emit (EvOpen path) m).
Proof. reflexivity. Qed.

Lemma brute_force_no_resolver env domain wordlist e m :
  resolver_new env = Raise e →
  brute_force_subdomains env domain wordlist m = (Raise e, m).
Proof.
  intros Hres. unfold brute_force_subdomains.
  by rewrite bind_run, lift_run, Hres.
Qed.

Lemma brute_force_readable env domain wordlist content m :
  resolver_new env = Ok () →
  fs m !! wordlist = Some (Text content) →
  let labels := stripped_nonblank (Py.readlines content) in
  brute_force_subdomains env domain wordlist m =
    (Ok (resolved_names env domain (lookups m) labels),
     Machine (fs m)
       (trace m ++ EvOpen wordlist
          :: ((λ l, EvResolve (l +:+ "." +:+ domain) "A" 3) <$> labels))
       (lookups m + List.length labels)).
Proof.
  intros Hres Hfile labels. unfold brute_force_subdomains.
  rewrite bind_run, lift_run, Hres.
  rewrite try_except_run, bind_run, open_read_run, Hfile, sweep_run.
  cbn [emit fs trace lookups]. by rewrite <- app_assoc.
Qed.

Lemma brute_force_missing env domain wordlist m :
  resolver_new env = Ok () →
  fs m !! wordlist = None →
  brute_force_subdomains env domain wordlist m
  = (Ok [], emit (EvOpen wordlist) m).
Proof.
  intros Hres Hfile. unfold brute_force_subdomains.
  rewrite bind_run, lift_run, Hres.
  by rewrite try_except_run, bind_run, open_read_run, Hfile.
Qed.

Lemma brute_force_no_access env domain wordlist e m :
  resolver_new env = Ok () →
  fs m !! wordlist = Some (NoAccess e) →
  brute_force_subdomains env domain wordlist m
  = (if issubclass (exn_class e) FileNotFoundError then Ok [] else Raise e,
     emit (EvOpen wordlist) m).
Proof.
  intros Hres Hfile. unfold brute_force_subdomains.
  rewrite bind_run, lift_run, Hres.
  rewrite try_except_run, bind_run, open_read_run, Hfile.
  by destruct (issubclass _ _).
Qed.

Lemma elem_of_resolved_names env domain labels : ∀ k0 h,
  h ∈ resolved_names env domain k0 labels ↔
  ∃ k label, labels !! k = Some label
    ∧ dns_resolve env (k0 + k) (label +:+ "." +:+ domain) = Ok ()
    ∧ h = label +:+ "." +:+ domain.
Proof.
  induction labels as [|label labels IH]; intros k0 h; cbn [resolved_names].
  - split; [by intros ?%elem_of_nil | by intros (k & l & ? & _)].
  - assert (Hshift : (∃ k l, labels !! k = Some l
                ∧ dns_resolve env (S k0 + k) (l +:+ "." +:+ domain) = Ok ()
                ∧ h = l +:+ "." +:+ domain)
              ↔ ∃ k l, (label :: labels) !! S k = Some l
                ∧ dns_resolve env (k0 + S k) (l +:+ "." +:+ domain) = Ok ()
                ∧ h = l +:+ "." +:+ domain).
    { split; intros (k & l & H1 & H2 & H3); exists k, l;
        (split; [exact H1|split; [|exact H3]]).
      - by replace (k0 + S k) with (S k0 + k) by lia.
      - by replace (S k0 + k) with (k0 + S k) by lia. }
    destruct (dns_resolve env k0 (label +:+ "." +:+ domain)) as [[]|e] eqn:Hr.
    + rewrite elem_of_cons, IH, Hshift. split.
      * intros [->|(k & l & ?)]; [|by exists (S k), l].
        exists 0, label. by rewrite Nat.add_0_r.
      * intros ([|k] & l & H1 & H2 & H3); [left|right; by exists k, l].
        by injection H1 as <-.
    + rewrite IH, Hshift. split.
      * intros (k & l & ?). by exists (S k), l.
      * intros ([|k] & l & H1 & H2 & H3); [|by exists k, l].
        injection H1 as <-. rewrite Nat.add_0_r in H2. congruence.
Qed.

(** C3: once its resolver is made, for a readable wordlist the probe
    returns [label.domain] for exactly the non-blank stripped labels whose
    lookup succeeded, whatever the other lookups raised, and it queried
    every label. *)
Theorem brute_force_exactly_resolved env domain wordlist content m :
  resolver_new env = Ok () →
  fs m !! wordlist = Some (Text content) →
  let labels := stripped_nonblank (Py.readlines content) in
  ∃ found m',
    brute_force_subdomains env domain wordlist m = (Ok found, m')
    ∧ (∀ h, h ∈ found ↔
         ∃ k label, labels !! k = Some label
           ∧ dns_resolve env (lookups m + k) (label +:+ "." +:+ domain)
             = Ok ()
           ∧ h = label +:+ "." +:+ domain)
    ∧ trace m' =
        trace m ++ EvOpen wordlist
          :: ((λ l, EvResolve (l +:+ "." +:+ domain) "A" 3) <$> labels).
Proof.
  intros Hres Hfile labels. eexists _, _.
  split; [by apply brute_force_readable|].
  split; [|reflexivity]. intros h. apply elem_of_resolved_names.
Qed.

Lemma brute_force_exactly_resolved_witness :
  let labels := stripped_nonblank (Py.readlines two_words) in
  ∃ found m',
    brute_force_subdomains env_dns "x.com" default_wordlist
      (with_wordlist (Text two_words)) = (Ok found, m')
    ∧ (∀ h, h ∈ found ↔
         ∃ k label, labels !! k = Some label
           ∧ dns_resolve env_dns
               (lookups (with_wordlist (Text two_words)) + k)
               (label +:+ "." +:+ "x.com")
             = Ok ()
           ∧ h = label +:+ "." +:+ "x.com")
    ∧ trace m' =
        trace (with_wordlist (Text two_words)) ++ EvOpen default_wordlist
          :: ((λ l, EvResolve (l +:+ "." +:+ "x.com") "A" 3) <$> labels).
Proof.
  apply (brute_force_exactly_resolved env_dns "x.com" default_wordlist
           two_words (with_wordlist (Text two_words))).
  - reflexivity.
  - vm_compute. reflexivity.
Defined.


(** C10: whatever the brute-force probe returns is [label.domain] for a
    stripped, non-blank line [label] of the wordlist. *)
Theorem brute_force_names_under_domain env domain wordlist m found :
  (brute_force_subdomains env domain wordlist m).1 = Ok found →
  ∀ h, h ∈ found →
    ∃ content line,
      fs m !! wordlist = Some (Text content)
      ∧ line ∈ Py.readlines content
      ∧ Py.strip line ≠ ""
      ∧ h = Py.strip line +:+ "." +:+ domain.
Proof.
  intros Hrun h Hh.
  destruct (resolver_new env) as [[]|e] eqn:Hres;
    [|by rewrite (brute_force_no_resolver _ _ _ _ _ Hres) in Hrun].
  destruct (fs m !! wordlist) as [[content|e]|] eqn:Hfile.
  - rewrite (brute_force_readable _ _ _ _ _ Hres Hfile) in Hrun.
    injection Hrun as <-.
    apply elem_of_resolved_names in Hh as (k & label & Hk & _ & ->).
    apply list_elem_of_lookup_2, elem_of_stripped_nonblank in Hk
      as (line & Hline & -> & Hne).
    by exists content, line.
  - rewrite (brute_force_no_access _ _ _ _ _ Hres Hfile) in Hrun. cbn [fst] in Hrun.
    destruct (issubclass _ _); [|discriminate].
    injection Hrun as <-. by apply elem_of_nil in Hh.
  - rewrite (brute_force_missing _ _ _ _ Hres Hfile) in Hrun.
    injection Hrun as <-. by apply elem_of_nil in Hh.
Qed.

Lemma brute_force_names_under_domain_witness :
  ∃ content line,
    fs (with_wordlist (Text two_words)) !! default_wordlist
    = Some (Text content)
    ∧ line ∈ Py.readlines content
    ∧ Py.strip line ≠ ""
    ∧ "www.x.com" = Py.strip line +:+ "." +:+ "x.com".
Proof.
  apply (brute_force_names_under_domain env_dns "x.com" default_wordlist
           (with_wordlist (Text two_words)) ["www.x.com"]).
  - vm_compute. reflexivity.
  - apply list_elem_of_here.
Defined.

(** C2, at the input on which the code departs from it: without the
    wordlist file the probe returns the empty list, as it does for an
    empty wordlist, and the whole run of the dashboard is the same in
    both cases: one generic log line, no warning drawn. *)
Theorem missing_wordlist_goes_unreported :
  brute_force_subdomains env_dns "x.com" default_wordlist boot
  = (Ok [], Machine ∅ [EvOpen default_wordlist] 0)
  ∧ (brute_force_subdomains env_dns "x.com" default_wordlist boot).1
    = (brute_force_subdomains env_dns "x.com" default_wordlist
         (with_wordlist (Text ""))).1
  ∧ rerun env_dns (invoke_on env_dns boot) (brute_only "x.com") fresh
    = rerun env_dns (invoke_on env_dns (with_wordlist (Text "")))
        (brute_only "x.com") fresh
  ∧ rerun env_dns (invoke_on env_dns boot) (brute_only "x.com") fresh
    = App ∅ [ "[00:00:01 UTC] [brute] x.com -> 0";
              "[00:00:02 UTC] Scan completed" ]
          3
          [ ProgressNew 0; ProgressSet 1 1; ProgressEmpty;
            Success "Scan finished!" ].
Proof. repeat split; vm_compute; reflexivity. Qed.

(** A wordlist that exists but cannot be opened makes the probe raise. *)
Lemma unreadable_wordlist_raises env domain :
  resolver_new env = Ok () →
  (brute_force_subdomains env domain default_wordlist
     (with_wordlist (NoAccess denied))).1 = Raise denied.
Proof.
  intros Hres.
  rewrite (brute_force_no_access env domain default_wordlist denied);
    done.
Qed.

(** ** The scan block *)

Section DashboardFacts.

Context (env : Env).
Context (invoke : nat → probe → string → result (list string)).

Lemma log_drawn msg a : drawn (log env msg a) = drawn a.
Proof. reflexivity. Qed.

Lemma log_logs msg a :
  logs (log env msg a)
  = logs a ++ [log_line (strftime_HMS (utcnow env (ticks a))) msg].
Proof. reflexivity. Qed.

Lemma collect_done n a d task : (collect env n (a, d) task).2 = d + 1.
Proof.
  destruct task as [[label domain] [[[|h r]|e]]]; reflexivity.
Qed.

Lemma collect_drawn n a d task :
  drawn (collect env n (a, d) task).1 = drawn a ++ [ProgressSet (d + 1) n].
Proof.
  destruct task as [[label domain] [[[|h r]|e]]]; reflexivity.
Qed.

Lemma collect_logs_length n a d task :
  List.length (logs (collect env n (a, d) task).1)
  = List.length (logs a) + (if failed task then 2 else 1).
Proof.
  destruct task as [[label domain] [[[|h r]|e]]]; cbn;
    rewrite ?length_app; cbn; lia.
Qed.

Lemma collect_all n tasks : ∀ a d,
  let end_ := foldl (collect env n) (a, d) tasks in
  end_.2 = d + List.length tasks
  ∧ drawn end_.1
    = drawn a ++ ((λ i, ProgressSet (d + S i) n)
                    <$> seq 0 (List.length tasks))
  ∧ List.length (logs end_.1)
    = List.length (logs a) + List.length tasks
      + List.length (filter (λ t, Is_true (failed t)) tasks).
Proof.
  induction tasks as [|task tasks IH]; intros a d; cbn zeta.
  - cbn [foldl fst snd List.length seq]. rewrite fmap_nil, app_nil_r, filter_nil.
    cbn [List.length]. repeat split; lia.
  - cbn [foldl]. destruct (collect env n (a, d) task) as [a1 d1] eqn:Hstep.
    specialize (IH a1 d1). cbn zeta in IH. destruct IH as (IH1 & IH2 & IH3).
    assert (Hd : d1 = d + 1)
      by (rewrite <- (collect_done n a d task); by rewrite Hstep).
    assert (Hdrawn : drawn a1 = drawn a ++ [ProgressSet (d + 1) n])
      by (rewrite <- (collect_drawn n a d task); by rewrite Hstep).
    assert (Hlogs : List.length (logs a1)
                    = List.length (logs a) + (if failed task then 2 else 1))
      by (rewrite <- (collect_logs_length n a d task); by rewrite Hstep).
    split; [|split].
    + rewrite IH1, Hd. cbn. lia.
    + rewrite IH2, Hdrawn, <- app_assoc. f_equal. cbn [List.length seq].
      rewrite fmap_cons. cbn [List.app]. f_equal.
      rewrite <- seq_shift, <- list_fmap_compose. apply list_fmap_ext.
      intros _ i _. cbn. f_equal. lia.
    + rewrite IH3, Hlogs, filter_cons.
      destruct (failed task); cbn; case_decide; try tauto; cbn; lia.
Qed.

Lemma build_tasks_step_counts c tasks n domain :
  let st := build_tasks_step invoke c (tasks, n) domain in
  List.length st.1 = List.length tasks + enabled_probes c
  ∧ st.2 = n + enabled_probes c.
Proof.
  unfold build_tasks_step, enabled_probes.
  destruct (use_crtsh c), (use_sublister c), (use_brute c); cbn;
    rewrite ?length_app; cbn; lia.
Qed.

Lemma build_tasks_from c domains : ∀ tasks n,
  let st := foldl (build_tasks_step invoke c) (tasks, n) domains in
  List.length st.1
  = List.length tasks + List.length domains * enabled_probes c
  ∧ st.2 = n + List.length domains * enabled_probes c.
Proof.
  induction domains as [|domain domains IH]; intros tasks n; cbn zeta.
  - cbn. lia.
  - cbn [foldl].
    destruct (build_tasks_step invoke c (tasks, n) domain) as [tasks1 n1]
      eqn:Hstep.
    pose proof (build_tasks_step_counts c tasks n domain) as Hcount.
    cbn zeta in Hcount. rewrite Hstep in Hcount. cbn [fst snd] in Hcount.
    specialize (IH tasks1 n1). cbn zeta in IH. cbn [List.length]. lia.
Qed.

Lemma build_tasks_counts domains c :
  List.length (build_tasks invoke domains c).1
  = List.length domains * enabled_probes c
  ∧ (build_tasks invoke domains c).2
    = List.length domains * enabled_probes c.
Proof. apply (build_tasks_from c domains [] 0). Qed.

(** C4: when the scan block ends, the counter [done] is the number of
    domains times the number of enabled probes; so are [total_tasks]
    and the number of tasks, and the progress bar was set once per
    task, to 1, 2, ..., whatever the futures returned or raised. *)
Theorem progress_counter_reaches_total domains c a :
  let s := scan env invoke domains c a in
  let n := List.length domains * enabled_probes c in
  done s = n
  ∧ total_tasks s = n
  ∧ List.length (tasks s) = n
  ∧ drawn (final s)
    = drawn a ++ ProgressNew 0
        :: ((λ i, ProgressSet (S i) n) <$> seq 0 n)
        ++ [ProgressEmpty; Success "Scan finished!"].
Proof.
  cbn zeta. unfold scan.
  pose proof (build_tasks_counts domains c) as [Hlen Htotal].
  destruct (build_tasks invoke domains c) as [ts total]. cbn [fst snd] in *.
  match goal with
  | |- context [foldl (collect env total) (?a0, 0) ts] =>
      pose proof (collect_all total ts a0 0) as (Hdone & Hdrawn & _);
      destruct (foldl (collect env total) (a0, 0) ts) as [a1 d1]
  end.
  cbn [fst snd] in *. cbn [done total_tasks tasks final].
  rewrite Hlen in Hdone, Hdrawn. subst total.
  split; [exact Hdone|]. split; [reflexivity|]. split; [exact Hlen|].
  cbn [draw log drawn]. rewrite Hdrawn. cbn [draw log drawn set_logs set_results].
  rewrite <- !app_assoc. reflexivity.
Qed.


Lemma first_block_step_errors c futures domain :
  Forall (λ fut, outcome fut = Raise tuple_call_error) futures →
  Forall (λ fut, outcome fut = Raise tuple_call_error)
         (first_block_step invoke c futures domain).
Proof.
  intros Hall. unfold first_block_step.
  destruct (use_crtsh c), (use_sublister c), (use_brute c);
    repeat (apply Forall_app; split); try exact Hall;
    by apply Forall_singleton.
Qed.

Lemma first_block_errors domains c :
  Forall (λ fut, outcome fut = Raise tuple_call_error)
         (first_block invoke domains c).
Proof.
  unfold first_block. generalize (@nil future) (Forall_nil_2 (λ fut,
    outcome fut = Raise tuple_call_error)).
  induction domains as [|domain domains IH]; intros futures Hall; [exact Hall|].
  cbn [foldl]. apply IH. by apply first_block_step_errors.
Qed.

(** C9: the scan block and the scan block without its first [with]
    block end in the same session state, drawn widgets, tasks and
    counters; all the first block leaves is a list of futures that hold
    the error of calling a tuple. *)
Theorem first_block_contributes_nothing domains c a :
  let full := scan env invoke domains c a in
  let cut := scan_second_block_only env invoke domains c a in
  final full = final cut
  ∧ tasks full = tasks cut
  ∧ total_tasks full = total_tasks cut
  ∧ done full = done cut
  ∧ Forall (λ fut, outcome fut = Raise tuple_call_error) (futures full).
Proof.
  cbn zeta. unfold scan, scan_second_block_only.
  destruct (build_tasks invoke domains c) as [ts total].
  match goal with
  | |- context [foldl (collect env total) ?st ts] =>
      destruct (foldl (collect env total) st ts) as [a1 d1]
  end.
  cbn [final tasks total_tasks done futures].
  repeat split. apply first_block_errors.
Qed.


(** The message of a log line is what follows its fifteen characters of
    time stamp. *)
Lemma log_line_inj t1 t2 msg1 msg2 :
  log_line (strftime_HMS t1) msg1 = log_line (strftime_HMS t2) msg2 →
  msg1 = msg2.
Proof.
  unfold log_line, strftime_HMS, pad2. rewrite !CsvFacts.append_cons.
  rewrite !CsvFacts.append_nil. intros H. by simplify_eq.
Qed.

Lemma no_start_marker_log msg a :
  msg ≠ "Scan started" →
  no_start_marker (logs a) → no_start_marker (logs (log env msg a)).
Proof.
  intros Hmsg Hold t. rewrite log_logs, elem_of_app, list_elem_of_singleton.
  intros [Hin|Heq]; [by apply (Hold t)|].
  by apply log_line_inj in Heq.
Qed.

Lemma no_start_marker_collect n a d task :
  no_start_marker (logs a) →
  no_start_marker (logs (collect env n (a, d) task).1).
Proof.
  intros Hold. destruct task as [[label domain] [[[|h r]|e]]];
    cbn [collect outcome fst draw logs];
    repeat (apply no_start_marker_log; [discriminate|]); exact Hold.
Qed.

Lemma no_start_marker_collect_all n tasks : ∀ a d,
  no_start_marker (logs a) →
  no_start_marker (logs (foldl (collect env n) (a, d) tasks).1).
Proof.
  induction tasks as [|task tasks IH]; intros a d Hold; [exact Hold|].
  cbn [foldl]. destruct (collect env n (a, d) task) as [a1 d1] eqn:Hstep.
  apply IH.
  pose proof (no_start_marker_collect n a d task Hold) as H.
  by rewrite Hstep in H.
Qed.

(** The reset before the second block erases the start marker: the log
    a scan leaves never holds a [Scan started] line. *)
Lemma scan_start_marker_erased domains c a :
  no_start_marker (logs (final (scan env invoke domains c a))).
Proof.
  unfold scan. destruct (build_tasks invoke domains c) as [ts total].
  match goal with
  | |- context [foldl (collect env total) (?a0, 0) ts] =>
      pose proof (no_start_marker_collect_all total ts a0 0) as Hall;
      destruct (foldl (collect env total) (a0, 0) ts) as [a1 d1]
  end.
  cbn [final draw logs]. apply no_start_marker_log; [discriminate|].
  cbn [draw logs fst] in *. apply Hall. intros t Hin. by apply elem_of_nil in Hin.
Qed.

(** The log a scan leaves has one line per task, one more per task that
    raised, and the completion line. *)
Lemma scan_log_length domains c a :
  let s := scan env invoke domains c a in
  List.length (logs (final s))
  = List.length (tasks s)
    + List.length (filter (λ t, Is_true (failed t)) (tasks s)) + 1.
Proof.
  cbn zeta. unfold scan. destruct (build_tasks invoke domains c) as [ts total].
  match goal with
  | |- context [foldl (collect env total) (?a0, 0) ts] =>
      pose proof (collect_all total ts a0 0) as (_ & _ & Hlen);
      destruct (foldl (collect env total) (a0, 0) ts) as [a1 d1]
  end.
  cbn [final tasks draw log logs fst snd] in *.
  rewrite length_app, Hlen.
  cbn [List.length set_results set_logs logs]. lia.
Qed.

End DashboardFacts.

(** C1, at the input on which the code departs from it: two domains,
    the brute-force probe alone, a wordlist that cannot be read.  The
    log the run leaves has no [Scan started] line and two lines for each
    of the two failed tasks, in the order of submission. *)
Theorem scan_log_of_failed_tasks :
  logs (rerun env_dns (invoke_on env_dns (with_wordlist (NoAccess denied)))
          (brute_only ("x.com" +:+ nl +:+ "y.com")) fresh)
  = [ "[00:00:01 UTC] ERROR brute x.com: [Errno 13] Permission denied: 'common_subdomains.txt'";
      "[00:00:02 UTC] [brute] x.com -> 0";
      "[00:00:03 UTC] ERROR brute y.com: [Errno 13] Permission denied: 'common_subdomains.txt'";
      "[00:00:04 UTC] [brute] y.com -> 0";
      "[00:00:05 UTC] Scan completed" ].
Proof. vm_compute. reflexivity. Qed.

(** The two scenarios of the specification, run through the dashboard. *)
Example crtsh_scenario :
  let a := rerun (env_crtsh (Ok mocked_response))
             (invoke_on (env_crtsh (Ok mocked_response)) boot)
             (Controls "example.com" true false false true) fresh in
  results a = {[ "a.example.com"; "b.example.com"; "c.example.com" ]}
  ∧ logs a = [ "[00:00:01 UTC] [crtsh] example.com -> 3 new subdomains";
               "[00:00:02 UTC] Scan completed" ]
  ∧ drawn a = [ ProgressNew 0; ProgressSet 1 1; ProgressEmpty;
                Success "Scan finished!" ].
Proof. vm_compute. repeat split; reflexivity. Qed.

Example nxdomain_scenario :
  let env := env_crtsh (Raise (Exn ConnectionError "unreachable")) in
  let a := rerun env (invoke_on env (with_wordlist (Text two_words)))
             (brute_only ("x.com" +:+ nl +:+ "y.com")) fresh in
  results a = ∅
  ∧ logs a = [ "[00:00:01 UTC] [brute] x.com -> 0";
               "[00:00:02 UTC] [brute] y.com -> 0";
               "[00:00:03 UTC] Scan completed" ]
  ∧ drawn a = [ ProgressNew 0; ProgressSet 1 2; ProgressSet 2 2;
                ProgressEmpty; Success "Scan finished!" ].
Proof. vm_compute. repeat split; reflexivity. Qed.

(** No domain entered: nothing runs. *)
Example no_domain_rejected :
  rerun env_dns (invoke_on env_dns boot) (brute_only ("  " +:+ nl)) fresh
  = App ∅ [] 0 [SidebarError "Please enter at least one domain."].
Proof. vm_compute. reflexivity. Qed.

(** ** The exporter *)




(** * Further properties *)

(** ** Stripping *)

Lemma lstrip_head s :
  Py.lstrip s = "" ∨ ∃ c rest, Py.lstrip s = String c rest ∧ Py.isspace c = false.
Proof.
  induction s as [|c s IH]; [by left|]. cbn [Py.lstrip].
  destruct (Py.isspace c) eqn:Hc; [exact IH|]. right. by exists c, s.
Qed.

Lemma rstrip_head c s :
  Py.isspace c = false → ∃ rest, Py.rstrip (String c s) = String c rest.
Proof.
  intros Hc. cbn [Py.rstrip]. destruct (Py.rstrip s) as [|c' r].
  - rewrite Hc. by exists "".
  - by exists (String c' r).
Qed.

Lemma rstrip_idemp s : Py.rstrip (Py.rstrip s) = Py.rstrip s.
Proof.
  induction s as [|c s IH]; [reflexivity|]. cbn [Py.rstrip].
  destruct (Py.rstrip s) as [|c' r] eqn:Hr.
  - destruct (Py.isspace c) eqn:Hc; [reflexivity|].
    cbn [Py.rstrip]. by rewrite Hc.
  - cbn [Py.rstrip]. cbn [Py.rstrip] in IH. by rewrite IH.
Qed.

(** [strip] leaves a stripped string as it is. *)
Lemma strip_idemp s : Py.strip (Py.strip s) = Py.strip s.
Proof.
  unfold Py.strip. destruct (lstrip_head s) as [-> | (c & rest & -> & Hc)].
  - reflexivity.
  - destruct (rstrip_head c rest Hc) as [r Hr].
    rewrite Hr. cbn [Py.lstrip]. rewrite Hc, <- Hr. apply rstrip_idemp.
Qed.

Lemma stripped_nonblank_clean lines name :
  name ∈ stripped_nonblank lines → name ≠ "" ∧ Py.strip name = name.
Proof.
  intros (line & _ & -> & Hne)%elem_of_stripped_nonblank.
  split; [exact Hne | apply strip_idemp].
Qed.

(** ** More on the crt.sh probe *)

Lemma crtsh_entry_run entry results m :
  crtsh_entry entry results m
  = (match py_get entry "name_value" (JStr "") with
     | Ok nv =>
         match py_split nv Py.LF with
         | Ok pieces => Ok (add_names pieces results)
         | Raise e => Raise e
         end
     | Raise e => Raise e
     end, m).
Proof.
  unfold crtsh_entry. rewrite bind_run, lift_run.
  destruct (py_get entry "name_value" (JStr "")) as [nv|e]; [|reflexivity].
  rewrite bind_run, lift_run. by destruct (py_split nv Py.LF).
Qed.

Lemma crtsh_entries_run entries : ∀ results m,
  (for_each entries crtsh_entry results m).2 = m
  ∧ ∀ names, (for_each entries crtsh_entry results m).1 = Ok names →
      ∀ n, n ∈ names → n ∈ results ∨ (n ≠ "" ∧ Py.strip n = n).
Proof.
  induction entries as [|entry entries IH]; intros results m.
  - split; [reflexivity|]. intros names [= <-] n Hn. by left.
  - rewrite for_each_cons, crtsh_entry_run.
    destruct (py_get entry "name_value" (JStr "")) as [nv|e];
      [|split; [reflexivity|discriminate]].
    destruct (py_split nv Py.LF) as [pieces|e];
      [|split; [reflexivity|discriminate]].
    destruct (IH (add_names pieces results) m) as [Hm Hnames].
    split; [exact Hm|]. intros names Hrun n Hn.
    destruct (Hnames names Hrun n Hn) as [Hin|Hclean]; [|by right].
    rewrite add_names_union in Hin. apply elem_of_union in Hin as [Hin|Hin].
    + by left.
    + right. apply elem_of_list_to_set in Hin.
      by apply stripped_nonblank_clean in Hin.
Qed.

Lemma crtsh_entries_pure entries : ∀ results m m',
  (for_each entries crtsh_entry results m).1
  = (for_each entries crtsh_entry results m').1.
Proof.
  induction entries as [|entry entries IH]; intros results m m'; [reflexivity|].
  rewrite !for_each_cons, !crtsh_entry_run.
  destruct (py_get entry "name_value" (JStr "")) as [nv|e]; [|reflexivity].
  destruct (py_split nv Py.LF) as [pieces|e]; [|reflexivity]. apply IH.
Qed.

Lemma crtsh_run env domain m :
  get_subdomains_crtsh env domain m
  = (match requests_get env (crtsh_url domain) with
     | Raise _ => Ok []
     | Ok r =>
         if negb (status_code r =? 200)%Z then Ok []
         else match json r with
              | Raise _ => Ok []
              | Ok data =>
                  match py_iter data with
                  | Raise _ => Ok []
                  | Ok entries =>
                      match (for_each entries crtsh_entry ∅ m).1 with
                      | Ok results => Ok (elements results)
                      | Raise _ => Ok []
                      end
                  end
              end
     end, emit (EvHttpGet (crtsh_url domain) 15) m).
Proof.
  unfold get_subdomains_crtsh.
  rewrite try_except_run, bind_run, http_get_run.
  destruct (requests_get env (crtsh_url domain)) as [r|e];
    [|by rewrite issubclass_Exception].
  destruct (negb (status_code r =? 200)%Z); [reflexivity|].
  rewrite bind_run, lift_run.
  destruct (json r) as [data|e]; [|by rewrite issubclass_Exception].
  rewrite bind_run, lift_run.
  destruct (py_iter data) as [entries|e]; [|by rewrite issubclass_Exception].
  rewrite bind_run.
  change (λ (entry : pyjson) (results : gset string),
            nv ← lift (py_get entry "name_value" (JStr ""));
            pieces ← lift (py_split nv Py.LF);
            mret (add_names pieces results)) with crtsh_entry.
  rewrite (crtsh_entries_pure entries ∅ m
             (emit (EvHttpGet (crtsh_url domain) 15) m)).
  pose proof (crtsh_entries_run entries ∅
                (emit (EvHttpGet (crtsh_url domain) 15) m)) as [Hm _].
  destruct (for_each entries crtsh_entry ∅
              (emit (EvHttpGet (crtsh_url domain) 15) m))
    as [[results|e] m'].
  - cbn [fst snd] in *. by subst m'.
  - cbn [fst snd] in *. subst m'. by rewrite issubclass_Exception.
Qed.

(** The probe makes one request, to the address built from the domain
    and with a timeout of 15 seconds, and touches nothing else, whatever
    the answer. *)
Theorem crtsh_one_request env domain m :
  (get_subdomains_crtsh env domain m).2
  = Machine (fs m)
      (trace m ++ [EvHttpGet ("https://crt.sh/?q=%25." +:+ domain
                              +:+ "&output=json") 15])
      (lookups m).
Proof. by rewrite crtsh_run. Qed.

(** Whatever the endpoint answers, the names the probe returns are
    pairwise different, not empty and free of surrounding white space. *)
Theorem crtsh_names_clean env domain m names :
  (get_subdomains_crtsh env domain m).1 = Ok names →
  NoDup names ∧ ∀ n, n ∈ names → n ≠ "" ∧ Py.strip n = n.
Proof.
  rewrite crtsh_run. cbn [fst]. intros Hrun.
  assert (Hempty : names = [] →
            NoDup names ∧ ∀ n, n ∈ names → n ≠ "" ∧ Py.strip n = n).
  { intros ->. split; [constructor|]. by intros n ?%elem_of_nil. }
  destruct (requests_get env (crtsh_url domain)) as [r|e];
    [|injection Hrun as <-; by apply Hempty].
  destruct (negb (status_code r =? 200)%Z);
    [injection Hrun as <-; by apply Hempty|].
  destruct (json r) as [data|e]; [|injection Hrun as <-; by apply Hempty].
  destruct (py_iter data) as [entries|e];
    [|injection Hrun as <-; by apply Hempty].
  pose proof (crtsh_entries_run entries ∅ m) as [_ Hclean].
  destruct (for_each entries crtsh_entry ∅ m).1 as [results|e];
    [|injection Hrun as <-; by apply Hempty].
  injection Hrun as <-. split; [apply NoDup_elements|].
  intros n Hn%elem_of_elements.
  destruct (Hclean results eq_refl n Hn) as [Hin|Hok]; [|exact Hok].
  by apply elem_of_empty in Hin.
Qed.

Lemma crtsh_names_clean_witness :
  NoDup ["a.example.com"]
  ∧ ∀ n, n ∈ ["a.example.com"] → n ≠ "" ∧ Py.strip n = n.
Proof.
  apply (crtsh_names_clean (env_crtsh (Ok trailing_newline_response))
           "example.com" boot ["a.example.com"]).
  vm_compute. reflexivity.
Defined.

Lemma crtsh_entries_malformed entries : ∀ results m,
  Exists (λ entry, ∀ nv, py_get entry "name_value" (JStr "") ≠ Ok (JStr nv))
         entries →
  ∃ e, (for_each entries crtsh_entry results m).1 = Raise e.
Proof.
  induction entries as [|entry entries IH]; intros results m Hbad.
  - by apply Exists_nil in Hbad.
  - rewrite for_each_cons, crtsh_entry_run.
    destruct (py_get entry "name_value" (JStr "")) as [nv|e] eqn:Hget;
      [|by exists e].
    destruct nv as [| | | |s| |]; try (by eexists).
    cbn [py_split]. apply IH.
    apply Exists_cons in Hbad as [Hbad|Hbad]; [|exact Hbad].
    by destruct (Hbad s).
Qed.

(** One entry that is no object, or whose [name_value] is no string,
    makes the probe return the empty list, however many names the other
    entries hold. *)
Theorem crtsh_malformed_entry_empties env domain m r entries entry :
  requests_get env (crtsh_url domain) = Ok r →
  status_code r = 200%Z →
  json r = Ok (JList entries) →
  entry ∈ entries →
  (∀ nv, py_get entry "name_value" (JStr "") ≠ Ok (JStr nv)) →
  (get_subdomains_crtsh env domain m).1 = Ok [].
Proof.
  intros Hr Hstatus Hjson Hin Hbad. rewrite crtsh_run, Hr, Hstatus, Hjson.
  cbn [fst Z.eqb Pos.eqb negb py_iter].
  destruct (crtsh_entries_malformed entries ∅ m) as [e ->]; [|reflexivity].
  apply Exists_exists. by exists entry.
Qed.

Lemma crtsh_malformed_entry_empties_witness :
  (get_subdomains_crtsh
     (env_crtsh
        (Ok (Response 200
               (Ok (JList [JDict [("name_value", JStr "a.example.com")];
                           JDict [("name_value", JNull)]])))))
     "example.com" boot).1 = Ok [].
Proof.
  eapply (crtsh_malformed_entry_empties _ "example.com" boot _ _
            (JDict [("name_value", JNull)])).
  - reflexivity.
  - reflexivity.
  - reflexivity.
  - apply list_elem_of_further, list_elem_of_here.
  - intros nv. discriminate.
Defined.

(** ** More on the Sublist3r probe *)

Lemma path_exists_run path m :
  path_exists path m
  = (Ok (bool_decide (is_Some (fs m !! path))), emit (EvExists path) m).
Proof. reflexivity. Qed.

Lemma run_process_run env argv timeout m :
  run_process env argv timeout m
  = ((subprocess_run env argv (fs m)).1,
     Machine (subprocess_run env argv (fs m)).2
             (trace m ++ [EvSpawn argv timeout]) (lookups m)).
Proof. unfold run_process. by destruct (subprocess_run env argv (fs m)). Qed.

(** What the probe does once the script is there. *)
Lemma sublister_run env domain m :
  is_Some (fs m !! "Sublist3r/sublist3r.py") →
  get_subdomains_sublister env domain m
  = let ran := subprocess_run env (sublister_argv domain) (fs m) in
    let spawned :=
      trace m ++ [EvExists "Sublist3r/sublist3r.py";
                  EvSpawn (sublister_argv domain) 120] in
    match ran.1 with
    | Raise _ => (Ok [], Machine ran.2 spawned (lookups m))
    | Ok proc =>
        match ran.2 !! "subdomains.txt" with
        | None =>
            (Ok (stripped_nonblank (Py.splitlines (stdout proc))),
             Machine ran.2 (spawned ++ [EvExists "subdomains.txt"])
                     (lookups m))
        | Some (Text content) =>
            (Ok (stripped_nonblank (Py.readlines content)),
             Machine ran.2
               (spawned ++ [EvExists "subdomains.txt";
                            EvOpen "subdomains.txt"])
               (lookups m))
        | Some (NoAccess _) =>
            (Ok [],
             Machine ran.2
               (spawned ++ [EvExists "subdomains.txt";
                            EvOpen "subdomains.txt"])
               (lookups m))
        end
    end.
Proof.
  intros Hscript. unfold get_subdomains_sublister.
  rewrite bind_run, path_exists_run, bool_decide_eq_true_2 by exact Hscript.
  cbn [negb]. rewrite try_except_run, bind_run, run_process_run.
  fold (sublister_argv domain). cbn zeta.
  destruct (subprocess_run env (sublister_argv domain) (fs (emit (EvExists "Sublist3r/sublist3r.py") m)))
    as [[proc|e] files] eqn:Hran.
  all: cbn [emit fs] in Hran; rewrite Hran; cbn [fst snd].
  - rewrite bind_run, path_exists_run. cbn [emit fs trace lookups].
    destruct (files !! "subdomains.txt") as [[content|e]|] eqn:Hout.
    + rewrite bool_decide_eq_true_2 by (by eexists).
      rewrite bind_run, open_read_run. cbn [emit fs trace lookups].
      rewrite Hout, ret_run. unfold emit. cbn [fs trace lookups].
      rewrite <- !app_assoc. reflexivity.
    + rewrite bool_decide_eq_true_2 by (by eexists).
      rewrite bind_run, open_read_run. cbn [emit fs trace lookups].
      rewrite Hout, issubclass_Exception, ret_run. unfold emit.
      cbn [fs trace lookups]. rewrite <- !app_assoc. reflexivity.
    + rewrite bool_decide_eq_false_2 by (by intros [? ?]).
      rewrite ret_run. unfold emit. cbn [fs trace lookups].
      rewrite <- !app_assoc. reflexivity.
  - rewrite issubclass_Exception, ret_run. unfold emit.
    cbn [fs trace lookups]. rewrite <- !app_assoc. reflexivity.
Qed.

(** The probe never raises: with or without the script, whatever the
    tool and the file system do, it returns a list. *)
Theorem sublister_never_raises env domain m :
  ∃ names, (get_subdomains_sublister env domain m).1 = Ok names.
Proof.
  destruct (fs m !! "Sublist3r/sublist3r.py") as [f|] eqn:Hscript.
  - rewrite sublister_run by (by eexists). cbn zeta.
    destruct (subprocess_run env (sublister_argv domain) (fs m)).1;
      [|by eexists].
    destruct ((subprocess_run env (sublister_argv domain) (fs m)).2
                !! "subdomains.txt") as [[?|?]|]; by eexists.
  - rewrite (sublister_absent_script env domain m Hscript). by eexists.
Qed.

(** The names the probe returns are not empty and free of surrounding
    white space. *)
Theorem sublister_names_clean env domain m names :
  (get_subdomains_sublister env domain m).1 = Ok names →
  ∀ n, n ∈ names → n ≠ "" ∧ Py.strip n = n.
Proof.
  intros Hrun n Hn.
  destruct (fs m !! "Sublist3r/sublist3r.py") as [f|] eqn:Hscript.
  - rewrite sublister_run in Hrun by (by eexists). cbn zeta in Hrun.
    destruct (subprocess_run env (sublister_argv domain) (fs m)).1;
      [|injection Hrun as <-; by apply elem_of_nil in Hn].
    destruct ((subprocess_run env (sublister_argv domain) (fs m)).2
                !! "subdomains.txt") as [[?|?]|];
      injection Hrun as <-;
      first [by apply elem_of_nil in Hn
            |by apply stripped_nonblank_clean in Hn].
  - rewrite (sublister_absent_script env domain m Hscript) in Hrun.
    injection Hrun as <-. by apply elem_of_nil in Hn.
Qed.

Lemma sublister_names_clean_witness :
  "mail.x.com" ≠ "" ∧ Py.strip "mail.x.com" = "mail.x.com".
Proof.
  apply (sublister_names_clean
           (env_tool (Ok (Completed ""))
              (Some (Text (" www.x.com" +:+ nl +:+ nl +:+ "mail.x.com"
                           +:+ nl))))
           "x.com" with_script ["www.x.com"; "mail.x.com"]).
  - vm_compute. reflexivity.
  - apply list_elem_of_further, list_elem_of_here.
Defined.

(** When the tool has run and its output file is there and opens, the
    probe returns the stripped non-blank lines of that file and does not
    look at what the tool printed. *)
Theorem sublister_prefers_output_file env domain m proc files content :
  is_Some (fs m !! "Sublist3r/sublist3r.py") →
  subprocess_run env (sublister_argv domain) (fs m) = (Ok proc, files) →
  files !! "subdomains.txt" = Some (Text content) →
  get_subdomains_sublister env domain m
  = (Ok (stripped_nonblank (Py.readlines content)),
     Machine files
       (trace m ++ [EvExists "Sublist3r/sublist3r.py";
                    EvSpawn (sublister_argv domain) 120;
                    EvExists "subdomains.txt"; EvOpen "subdomains.txt"])
       (lookups m)).
Proof.
  intros Hscript Hran Hout. rewrite sublister_run by exact Hscript.
  cbn zeta. rewrite Hran. cbn [fst snd]. rewrite Hout.
  by rewrite <- !app_assoc.
Qed.

Lemma sublister_prefers_output_file_witness :
  get_subdomains_sublister
    (env_tool (Ok (Completed ("printed.x.com" +:+ nl)))
       (Some (Text ("www.x.com" +:+ nl))))
    "x.com" with_script
  = (Ok (stripped_nonblank (Py.readlines ("www.x.com" +:+ nl))),
     Machine (<[ "subdomains.txt" := Text ("www.x.com" +:+ nl) ]>
                (fs with_script))
       (trace with_script
        ++ [EvExists "Sublist3r/sublist3r.py";
            EvSpawn (sublister_argv "x.com") 120;
            EvExists "subdomains.txt"; EvOpen "subdomains.txt"])
       (lookups with_script)).
Proof.
  apply (sublister_prefers_output_file
           (env_tool (Ok (Completed ("printed.x.com" +:+ nl)))
              (Some (Text ("www.x.com" +:+ nl))))
           "x.com" with_script (Completed ("printed.x.com" +:+ nl))).
  - vm_compute. by eexists.
  - reflexivity.
  - vm_compute. reflexivity.
Defined.

(** When the tool has run and left no output file, the probe returns the
    stripped non-blank lines of what the tool printed. *)
Theorem sublister_falls_back_to_stdout env domain m proc files :
  is_Some (fs m !! "Sublist3r/sublist3r.py") →
  subprocess_run env (sublister_argv domain) (fs m) = (Ok proc, files) →
  files !! "subdomains.txt" = None →
  (get_subdomains_sublister env domain m).1
  = Ok (stripped_nonblank (Py.splitlines (stdout proc))).
Proof.
  intros Hscript Hran Hout. rewrite sublister_run by exact Hscript.
  cbn zeta. rewrite Hran. cbn [fst snd]. by rewrite Hout.
Qed.

Lemma sublister_falls_back_to_stdout_witness :
  (get_subdomains_sublister
     (env_tool (Ok (Completed ("printed.x.com" +:+ nl))) None)
     "x.com" with_script).1
  = Ok (stripped_nonblank (Py.splitlines ("printed.x.com" +:+ nl))).
Proof.
  apply (sublister_falls_back_to_stdout
           (env_tool (Ok (Completed ("printed.x.com" +:+ nl))) None)
           "x.com" with_script (Completed ("printed.x.com" +:+ nl))
           (fs with_script)).
  - vm_compute. by eexists.
  - reflexivity.
  - vm_compute. reflexivity.
Defined.

(** When running the tool raises (a timeout, a missing interpreter), or
    when its output file is there but does not open, the probe returns
    the empty list; in the second case what the tool printed is lost. *)
Theorem sublister_failure_gives_empty env domain m :
  is_Some (fs m !! "Sublist3r/sublist3r.py") →
  let ran := subprocess_run env (sublister_argv domain) (fs m) in
  (∃ e, ran.1 = Raise e)
  ∨ (∃ e, ran.2 !! "subdomains.txt" = Some (NoAccess e)) →
  (get_subdomains_sublister env domain m).1 = Ok [].
Proof.
  intros Hscript ran Hfail. rewrite sublister_run by exact Hscript.
  cbn zeta. fold ran. destruct Hfail as [[e He]|[e He]].
  - by rewrite He.
  - rewrite He. by destruct ran.1.
Qed.

Lemma sublister_failure_gives_empty_witness :
  (get_subdomains_sublister
     (env_tool (Ok (Completed ("printed.x.com" +:+ nl)))
        (Some (NoAccess denied)))
     "x.com" with_script).1 = Ok [].
Proof.
  apply (sublister_failure_gives_empty
           (env_tool (Ok (Completed ("printed.x.com" +:+ nl)))
              (Some (NoAccess denied)))
           "x.com" with_script).
  - vm_compute. by eexists.
  - right. exists denied. vm_compute. reflexivity.
Defined.

(** ** More on the brute-force probe *)

(** An error of [open] other than a missing file is not caught: the
    probe raises it, before any lookup. *)
Theorem brute_force_open_error_propagates env domain wordlist e m :
  resolver_new env = Ok () →
  fs m !! wordlist = Some (NoAccess e) →
  issubclass (exn_class e) FileNotFoundError = false →
  brute_force_subdomains env domain wordlist m
  = (Raise e, Machine (fs m) (trace m ++ [EvOpen wordlist]) (lookups m)).
Proof.
  intros Hres Hfile Hcls.
  by rewrite (brute_force_no_access env domain wordlist e m Hres Hfile), Hcls.
Qed.

Lemma brute_force_open_error_propagates_witness :
  brute_force_subdomains env_dns "x.com" default_wordlist
    (with_wordlist (NoAccess denied))
  = (Raise denied,
     Machine (fs (with_wordlist (NoAccess denied)))
       (trace (with_wordlist (NoAccess denied)) ++ [EvOpen default_wordlist])
       (lookups (with_wordlist (NoAccess denied)))).
Proof.
  apply (brute_force_open_error_propagates env_dns "x.com" default_wordlist
           denied (with_wordlist (NoAccess denied))).
  - reflexivity.
  - vm_compute. reflexivity.
  - vm_compute. reflexivity.
Defined.

(** When the resolver cannot be made, the probe raises that error with
    nothing opened and nothing looked up. *)
Theorem brute_force_resolver_failure env domain wordlist e m :
  resolver_new env = Raise e →
  brute_force_subdomains env domain wordlist m = (Raise e, m).
Proof. apply brute_force_no_resolver. Qed.

Lemma brute_force_resolver_failure_witness :
  brute_force_subdomains env_no_resolver "x.com" default_wordlist
    (with_wordlist (Text two_words))
  = (Raise no_resolver, with_wordlist (Text two_words)).
Proof.
  apply (brute_force_resolver_failure env_no_resolver "x.com"
           default_wordlist no_resolver (with_wordlist (Text two_words))).
  reflexivity.
Defined.

Lemma resolved_names_sublist env domain labels : ∀ k,
  resolved_names env domain k labels
  `sublist_of` ((λ l, l +:+ "." +:+ domain) <$> labels).
Proof.
  induction labels as [|label labels IH]; intros k; cbn [resolved_names].
  - constructor.
  - rewrite fmap_cons. destruct (dns_resolve env k _).
    + by apply sublist_skip.
    + by apply sublist_cons.
Qed.

(** For a wordlist that opens, the names found come in the order of the
    wordlist, at most one per non-blank line; the probe makes one lookup
    per such line and leaves the file system as it was. *)
Theorem brute_force_keeps_wordlist_order env domain wordlist content m :
  resolver_new env = Ok () →
  fs m !! wordlist = Some (Text content) →
  let labels := stripped_nonblank (Py.readlines content) in
  ∃ found m',
    brute_force_subdomains env domain wordlist m = (Ok found, m')
    ∧ found `sublist_of` ((λ l, l +:+ "." +:+ domain) <$> labels)
    ∧ lookups m' = lookups m + List.length labels
    ∧ fs m' = fs m.
Proof.
  intros Hres Hfile labels. eexists _, _.
  split; [by apply brute_force_readable|].
  split; [apply resolved_names_sublist|]. by split.
Qed.

Lemma brute_force_keeps_wordlist_order_witness :
  let labels := stripped_nonblank (Py.readlines two_words) in
  ∃ found m',
    brute_force_subdomains env_dns "x.com" default_wordlist
      (with_wordlist (Text two_words)) = (Ok found, m')
    ∧ found `sublist_of` ((λ l, l +:+ "." +:+ "x.com") <$> labels)
    ∧ lookups m'
      = lookups (with_wordlist (Text two_words)) + List.length labels
    ∧ fs m' = fs (with_wordlist (Text two_words)).
Proof.
  apply (brute_force_keeps_wordlist_order env_dns "x.com" default_wordlist
           two_words (with_wordlist (Text two_words))).
  - reflexivity.
  - vm_compute. reflexivity.
Defined.

(** ** More on the scan block *)

Section ScanMore.

Context (env : Env).
Context (invoke : nat → probe → string → result (list string)).

Lemma collect_results n a d task :
  results (collect env n (a, d) task).1
  = results a ∪ list_to_set (returned task).
Proof.
  destruct task as [[label domain] [[[|h r]|e]]];
    cbn [collect outcome returned fst snd draw log set_results results].
  - by rewrite list_to_set_nil, (right_id_L ∅ (∪)).
  - reflexivity.
  - by rewrite list_to_set_nil, (right_id_L ∅ (∪)).
Qed.

Lemma collect_all_results n tasks : ∀ a d,
  results (foldl (collect env n) (a, d) tasks).1
  = results a ∪ list_to_set (tasks ≫= returned).
Proof.
  induction tasks as [|task tasks IH]; intros a d.
  - cbn. by rewrite (right_id_L ∅ (∪)).
  - cbn [foldl]. destruct (collect env n (a, d) task) as [a1 d1] eqn:Hstep.
    rewrite IH, bind_cons, list_to_set_app_L, (assoc_L (∪)).
    f_equal. rewrite <- (collect_results n a d task). by rewrite Hstep.
Qed.

(** When the scan block ends, the result set is the set of the names
    the futures returned, whatever the session held before; a future
    that raised adds nothing. *)
Theorem scan_results_are_union domains c a :
  let s := scan env invoke domains c a in
  results (final s) = list_to_set (tasks s ≫= returned).
Proof.
  cbn zeta. unfold scan. destruct (build_tasks invoke domains c) as [ts total].
  match goal with
  | |- context [foldl (collect env total) (?a0, 0) ts] =>
      pose proof (collect_all_results total ts a0 0) as Hres;
      destruct (foldl (collect env total) (a0, 0) ts) as [a1 d1]
  end.
  cbn [final tasks draw log results fst set_results] in *.
  by rewrite Hres, (left_id_L ∅ (∪)).
Qed.

Lemma size_list_to_set_le (l : list string) :
  (size (list_to_set l : gset string) ≤ List.length l)%nat.
Proof.
  induction l as [|x l IH]; [by rewrite list_to_set_nil, size_empty|].
  rewrite list_to_set_cons, size_union_alt, size_singleton. cbn [List.length].
  assert (Hsub : list_to_set l ∖ {[x]} ⊆ (list_to_set l : gset string))
    by apply subseteq_difference_l, reflexivity.
  apply subseteq_size in Hsub. lia.
Qed.

(** The result set holds every name a task returned, and no more names
    than the tasks returned in all. *)
Theorem scan_results_bounds domains c a :
  let s := scan env invoke domains c a in
  (∀ task, task ∈ tasks s → ∀ n, n ∈ returned task → n ∈ results (final s))
  ∧ (size (results (final s))
     ≤ sum_list (List.length ∘ returned <$> tasks s))%nat.
Proof.
  cbn zeta. rewrite scan_results_are_union. split.
  - intros task Htask n Hn. apply elem_of_list_to_set, list_elem_of_bind.
    by exists task.
  - etrans; [apply size_list_to_set_le|].
    generalize (tasks (scan env invoke domains c a)).
    intros ts. induction ts as [|t ts IH]; [reflexivity|].
    rewrite bind_cons, length_app, fmap_cons.
    change (sum_list ((List.length ∘ returned) t
                      :: (List.length ∘ returned <$> ts)))
      with (List.length (returned t)
            + sum_list (List.length ∘ returned <$> ts)).
    lia.
Qed.

Lemma plan_cons domain domains c :
  plan (domain :: domains) c
  = ((λ lp : string * probe, (lp.1, lp.2, domain)) <$> enabled c)
    ++ plan domains c.
Proof. reflexivity. Qed.

Lemma build_tasks_step_plan c tasks n domain :
  (build_tasks_step invoke c (tasks, n) domain).1
  = tasks
    ++ imap (λ i, task_of invoke (List.length tasks + i))
            ((λ lp : string * probe, (lp.1, lp.2, domain)) <$> enabled c).
Proof.
  unfold build_tasks_step, enabled.
  destruct (use_crtsh c), (use_sublister c), (use_brute c);
    cbn [fst List.app fmap list_fmap imap];
    rewrite <- ?app_assoc, ?length_app; cbn [List.length List.app];
    unfold task_of, submit, py_call, compose; cbn [fst snd];
    rewrite ?app_nil_r, ?Nat.add_0_r, <- ?Nat.add_assoc; reflexivity.
Qed.

Lemma build_tasks_plan_from c domains : ∀ tasks n,
  (foldl (build_tasks_step invoke c) (tasks, n) domains).1
  = tasks ++ imap (λ i, task_of invoke (List.length tasks + i))
                  (plan domains c).
Proof.
  induction domains as [|domain domains IH]; intros tasks n.
  - cbn. by rewrite app_nil_r.
  - cbn [foldl].
    pose proof (build_tasks_step_plan c tasks n domain) as Hstep.
    destruct (build_tasks_step invoke c (tasks, n) domain) as [tasks1 n1].
    cbn [fst] in Hstep. subst tasks1.
    rewrite IH, plan_cons, imap_app, <- app_assoc. f_equal. f_equal.
    apply imap_ext. intros i x _. rewrite length_app, length_imap.
    f_equal. lia.
Qed.

(** The tasks of a scan are those of the plan, domain by domain and,
    within a domain, crt.sh, Sublist3r, brute force: each carries the
    label of its probe, its domain and the future of its own call. *)
Theorem scan_tasks_follow_plan domains c a :
  tasks (scan env invoke domains c a)
  = imap (task_of invoke) (plan domains c).
Proof.
  unfold scan.
  pose proof (build_tasks_plan_from c domains [] 0) as Hplan.
  fold (build_tasks invoke domains c) in Hplan.
  destruct (build_tasks invoke domains c) as [ts total].
  destruct (foldl (collect env total) _ ts) as [a1 d1].
  cbn [tasks fst] in *. by rewrite Hplan.
Qed.

(** A task that returned names adds one line to the log, which tells how
    many of its names the result set did not hold yet. *)
Theorem collect_reports_new_names n a d label domain name names :
  logs (collect env n (a, d) (label, domain, Future (Ok (name :: names)))).1
  = logs a
    ++ [log_line (strftime_HMS (utcnow env (ticks a)))
          ("[" +:+ label +:+ "] " +:+ domain +:+ " -> "
           +:+ pretty (size (list_to_set (name :: names) ∖ results a))
           +:+ " new subdomains")].
Proof.
  assert (Hnew : size (results a ∪ list_to_set (name :: names))
                 - size (results a)
                 = size (list_to_set (name :: names) ∖ results a))
    by (rewrite size_union_alt; lia).
  cbn [collect outcome fst draw log logs set_results results ticks].
  by rewrite Hnew.
Qed.

(** With the button pressed and nothing but blank lines in the text
    area, the run draws the sidebar error and leaves results, logs and
    clock as they were: no probe is scheduled. *)
Theorem rerun_rejects_blank_input c a :
  run_button c = true →
  (∀ line, line ∈ Py.splitlines (domains_input c) → Py.strip line = "") →
  rerun env invoke c a
  = App (results a) (logs a) (ticks a)
        (drawn a ++ [SidebarError "Please enter at least one domain."]).
Proof.
  intros Hrun Hblank. unfold rerun. rewrite Hrun.
  assert (Hnone : parse_domains (domains_input c) = []).
  { unfold parse_domains. apply elem_of_nil_inv. intros d Hd.
    apply elem_of_stripped_nonblank in Hd as (line & Hline & -> & Hne).
    by apply Hne, Hblank. }
  by rewrite Hnone.
Qed.

(** Without the button, a run leaves the session as it was. *)
Lemma rerun_idle c a : run_button c = false → rerun env invoke c a = a.
Proof. intros Hrun. unfold rerun. by rewrite Hrun. Qed.

End ScanMore.

Lemma rerun_rejects_blank_input_witness :
  rerun env_dns (invoke_on env_dns boot)
        (brute_only ("  " +:+ nl +:+ nl)) fresh
  = App (results fresh) (logs fresh) (ticks fresh)
        (drawn fresh ++ [SidebarError "Please enter at least one domain."]).
Proof.
  apply (rerun_rejects_blank_input env_dns (invoke_on env_dns boot)
           (brute_only ("  " +:+ nl +:+ nl)) fresh).
  - reflexivity.
  - vm_compute. intros line Hin.
    apply list_elem_of_In in Hin. cbn in Hin.
    destruct Hin as [<-|[<-|[]]]; reflexivity.
Defined.

(** ** The domains of the text area *)

Lemma any_char_app p a b :
  any_char p (a +:+ b) = any_char p a || any_char p b.
Proof.
  induction a as [|c a IH]; [reflexivity|].
  rewrite CsvFacts.append_cons. cbn [any_char]. by rewrite IH, orb_assoc.
Qed.

Lemma splitlines_from_no_break n : ∀ s cur,
  (String.length s ≤ n)%nat →
  any_char Py.is_linebreak cur = false →
  Forall (λ piece, any_char Py.is_linebreak piece = false)
         (Py.splitlines_from cur s).
Proof.
  induction n as [|n IH]; intros s cur Hlen Hcur.
  - destruct s; [|cbn in Hlen; lia]. cbn. destruct cur; by repeat constructor.
  - destruct s as [|c s]; [cbn; destruct cur; by repeat constructor|].
    cbn [String.length] in Hlen. cbn [Py.splitlines_from].
    destruct (Py.is_linebreak c) eqn:Hc.
    + destruct s as [|c' s]; [by repeat constructor|].
      cbn [String.length] in Hlen.
      destruct (Ascii.eqb c Py.CR && Ascii.eqb c' Py.LF);
        constructor; try exact Hcur; apply IH; try reflexivity;
        cbn [String.length]; lia.
    + apply IH; [lia|]. rewrite any_char_app, Hcur. cbn. by rewrite Hc.
Qed.

Lemma any_char_lstrip p s :
  any_char p (Py.lstrip s) = true → any_char p s = true.
Proof.
  induction s as [|c s IH]; [done|]. cbn [Py.lstrip].
  destruct (Py.isspace c); [|done].
  intros H%IH. cbn [any_char]. rewrite H. apply orb_true_r.
Qed.

Lemma any_char_rstrip p s :
  any_char p (Py.rstrip s) = true → any_char p s = true.
Proof.
  induction s as [|c s IH]; [done|]. cbn [Py.rstrip any_char].
  destruct (Py.rstrip s) as [|c' r].
  - destruct (Py.isspace c); [done|]. cbn [any_char].
    rewrite orb_false_r. intros ->. reflexivity.
  - cbn [any_char] in *. intros [->|H]%orb_true_iff; [reflexivity|].
    rewrite (IH H). apply orb_true_r.
Qed.

Lemma any_char_strip p s :
  any_char p s = false → any_char p (Py.strip s) = false.
Proof.
  intros Hs. destruct (any_char p (Py.strip s)) eqn:H; [|reflexivity].
  apply any_char_rstrip, any_char_lstrip in H. congruence.
Qed.

(** Every domain read from the text area is not empty, has no
    surrounding white space and holds no line boundary. *)
Theorem parse_domains_clean text domain :
  domain ∈ parse_domains text →
  domain ≠ "" ∧ Py.strip domain = domain
  ∧ any_char Py.is_linebreak domain = false.
Proof.
  intros Hd. destruct (stripped_nonblank_clean _ _ Hd) as [Hne Hstrip].
  split; [exact Hne|]. split; [exact Hstrip|].
  apply elem_of_stripped_nonblank in Hd as (line & Hline & -> & _).
  apply any_char_strip.
  pose proof (splitlines_from_no_break (String.length text) text ""
                (le_n _) eq_refl) as Hall.
  rewrite Forall_forall in Hall. by apply Hall.
Qed.

Lemma parse_domains_clean_witness :
  "y.com" ≠ "" ∧ Py.strip "y.com" = "y.com"
  ∧ any_char Py.is_linebreak "y.com" = false.
Proof.
  apply (parse_domains_clean ("x.com " +:+ String Py.CR nl +:+ " y.com")).
  vm_compute. apply list_elem_of_further, list_elem_of_here.
Defined.

(** ** More on the exporter *)

(** The export writes one file, named after the format, and leaves every
    other file as it was; any format but [csv] gets the JSON writer. *)
Theorem save_results_file_writes_one_file linesep
    (to_json_records : string → list string → string)
    (subdomains : gset string) fmt (files : filesystem) :
  let saved := save_results_file linesep to_json_records subdomains fmt files in
  saved.1 = "subdomains_found." +:+ fmt
  ∧ (∀ path, path ≠ saved.1 → saved.2 !! path = files !! path)
  ∧ saved.2 !! saved.1
    = Some (Text (if String.eqb fmt "csv"
                  then Csv.to_csv linesep "Subdomain" (elements subdomains)
                  else to_json_records "Subdomain" (elements subdomains))).
Proof.
  cbn zeta. unfold save_results_file.
  destruct (String.eqb fmt "csv"); cbn [fst snd];
    (split; [reflexivity|]; split;
     [intros path Hpath; by rewrite lookup_insert_ne
     |by rewrite lookup_insert_eq]).
Qed.

(** Two result sets whose CSV exports are the same file are the same
    set: the export loses no hostname and merges none. *)
Theorem csv_export_injective linesep
    (to_json_records : string → list string → string)
    (X Y : gset string) (files : filesystem) :
  Csv.is_linesep linesep →
  (save_results_file linesep to_json_records X "csv" files).2
    !! "subdomains_found.csv"
  = (save_results_file linesep to_json_records Y "csv" files).2
    !! "subdomains_found.csv" →
  X = Y.
Proof.
  intros Hlinesep. unfold save_results_file.
  cbn [String.eqb Ascii.eqb Bool.eqb snd].
  change ("subdomains_found." +:+ "csv") with "subdomains_found.csv".
  rewrite !lookup_insert_eq. intros [= Heq].
  apply (CsvFacts.to_csv_inj linesep Hlinesep) in Heq.
  by rewrite <- (list_to_set_elements_L X), Heq, list_to_set_elements_L.
Qed.

(** Two ways of writing the set of a name with a carriage return and a
    name with a comma. *)
Lemma csv_export_injective_witness :
  ({[ cr_name; "b,c" ]} : gset string) = {[ "b,c"; cr_name ]}.
Proof.
  apply (csv_export_injective nl (λ _ _, "[]") {[ cr_name; "b,c" ]}
           {[ "b,c"; cr_name ]} ∅).
  - by left.
  - vm_compute. reflexivity.
Defined.

(** ** The logs tab, the results tab and the summary *)

(** The logs tab shows the 500 newest lines of the log, the newest
    first. *)
Theorem logs_tab_newest_first (a : app) :
  logs a ≠ [] →
  logs_tab a
  = Markdown "### Logs (live)"
    :: (pre_line <$> take 500 (reverse (logs a))).
Proof.
  intros Hlogs. unfold logs_tab, last_items. rewrite take_reverse.
  by destruct (logs a).
Qed.

Lemma logs_tab_newest_first_witness :
  logs_tab (App ∅ ["first"; "second"] 2 [])
  = Markdown "### Logs (live)"
    :: (pre_line <$> take 500 (reverse ["first"; "second"])).
Proof.
  apply (logs_tab_newest_first (App ∅ ["first"; "second"] 2 [])).
  discriminate.
Defined.

Lemma py_sorted_Permutation names : py_sorted names ≡ₚ names.
Proof. apply merge_sort_Permutation. Qed.

Lemma py_sorted_Sorted names : Sorted str_le (py_sorted names).
Proof. apply (Sorted_merge_sort str_le). Qed.

Section PageFacts.

Context (linesep : string).
Context (to_json_records : string → list string → string).
Context (str_contains : string → result (string → bool)).


(** What the results tab does when there are results and the search
    term, if any, compiles. *)
Lemma results_tab_run v a files rows :
  results a ≠ ∅ →
  filter_rows str_contains v (elements (results a)) = Ok rows →
  let saved :=
    save_results_file linesep to_json_records (results a)
      (py_lower (export_format v)) files in
  results_tab linesep to_json_records str_contains v a files
  = ([ Markdown "### Results";
       Dataframe (sort_values (sort_asc v) rows);
       DownloadButton " Download results"
         (if String.eqb (py_lower (export_format v)) "csv"
          then Csv.to_csv linesep "Subdomain" (elements (results a))
          else to_json_records "Subdomain" (elements (results a)))
         saved.1;
       Markdown "**Copy results (select & copy):**";
       TextArea "All subdomains (select then copy)"
         (py_join nl (py_sorted (elements (results a)))) ],
     None, saved.2).
Proof.
  intros Hne Hrows. cbn zeta. unfold results_tab.
  rewrite bool_decide_eq_false_2 by exact Hne. rewrite Hrows.
  pose proof (save_results_file_writes_one_file linesep to_json_records
                (results a) (py_lower (export_format v)) files)
    as (_ & _ & Hfile).
  cbn zeta in Hfile.
  destruct (save_results_file linesep to_json_records (results a)
              (py_lower (export_format v)) files) as [fname files'].
  cbn [fst snd] in *. by rewrite Hfile.
Qed.

Lemma results_tab_empty v a files :
  results a = ∅ →
  results_tab linesep to_json_records str_contains v a files
  = ([ Markdown "### Results";
       Info "No subdomains found yet. Start a scan to populate results." ],
     None, files).
Proof.
  intros Hempty. unfold results_tab.
  by rewrite bool_decide_eq_true_2 by exact Hempty.
Qed.

Lemma results_tab_stopped v a files e :
  results a ≠ ∅ →
  filter_rows str_contains v (elements (results a)) = Raise e →
  results_tab linesep to_json_records str_contains v a files
  = ([Markdown "### Results"], Some e, files).
Proof.
  intros Hne Hbad. unfold results_tab.
  rewrite bool_decide_eq_false_2 by exact Hne. by rewrite Hbad.
Qed.

Lemma filter_rows_spec v df rows :
  filter_rows str_contains v df = Ok rows →
  NoDup df →
  NoDup rows ∧ (∀ name, name ∈ rows → name ∈ df)
  ∧ (search_term v = "" → rows = df).
Proof.
  unfold filter_rows. intros Hrows Hnodup.
  destruct (search_term v) as [|c s]; cbn [Py.truthy] in Hrows.
  - injection Hrows as <-. done.
  - destruct (str_contains (String c s)) as [matches|e]; [|discriminate].
    injection Hrows as <-. split; [by apply NoDup_filter|].
    split; [|discriminate]. by intros name [_ Hname]%list_elem_of_filter.
Qed.


(** The table holds, without repetition, names of the result set that
    match the search term: all of them when there is none; they are in
    ascending order, or the reverse of it when the box is not ticked. *)
Theorem results_tab_table_sorted v a files drawn files' rows :
  results_tab linesep to_json_records str_contains v a files
  = (drawn, None, files') →
  Dataframe rows ∈ drawn →
  NoDup rows
  ∧ (∀ name, name ∈ rows → name ∈ results a)
  ∧ (search_term v = "" → rows ≡ₚ elements (results a))
  ∧ Sorted str_le (if sort_asc v then rows else reverse rows).
Proof.
  intros Hrun Hin.
  destruct (decide (results a = ∅)) as [Hempty|Hne].
  { rewrite (results_tab_empty v a files Hempty) in Hrun.
    injection Hrun as <- _. apply list_elem_of_In in Hin. cbn in Hin.
    destruct Hin as [?|[?|[]]]; discriminate. }
  destruct (filter_rows str_contains v (elements (results a)))
    as [df|e] eqn:Hkept;
    [|by rewrite (results_tab_stopped v a files e Hne Hkept) in Hrun].
  rewrite (results_tab_run v a files df Hne Hkept) in Hrun.
  cbn zeta in Hrun. injection Hrun as <- _.
  apply list_elem_of_In in Hin. cbn in Hin.
  destruct Hin as [?|[[= <-]|[?|[?|[?|[]]]]]]; try discriminate.
  destruct (filter_rows_spec v _ df Hkept (NoDup_elements _))
    as (Hnodup & Hsub & Hall).
  assert (Hperm : sort_values (sort_asc v) df ≡ₚ df).
  { unfold sort_values. destruct (sort_asc v);
      [|rewrite reverse_Permutation]; apply py_sorted_Permutation. }
  split; [by rewrite Hperm|]. split.
  - intros name Hname. apply elem_of_elements, Hsub. by rewrite <- Hperm.
  - split; [intros Hterm; by rewrite Hperm, (Hall Hterm)|].
    unfold sort_values. destruct (sort_asc v);
      rewrite ?reverse_involutive; apply py_sorted_Sorted.
Qed.

(** The text area holds the names of the whole result set, each once, in
    ascending order, joined by line feeds. *)
Theorem results_tab_text_area v a files drawn files' label value :
  results_tab linesep to_json_records str_contains v a files
  = (drawn, None, files') →
  TextArea label value ∈ drawn →
  ∃ names,
    value = py_join nl names
    ∧ Sorted str_le names
    ∧ names ≡ₚ elements (results a).
Proof.
  intros Hrun Hin.
  destruct (decide (results a = ∅)) as [Hempty|Hne].
  { rewrite (results_tab_empty v a files Hempty) in Hrun.
    injection Hrun as <- _. apply list_elem_of_In in Hin. cbn in Hin.
    destruct Hin as [?|[?|[]]]; discriminate. }
  destruct (filter_rows str_contains v (elements (results a)))
    as [df|e] eqn:Hkept;
    [|by rewrite (results_tab_stopped v a files e Hne Hkept) in Hrun].
  rewrite (results_tab_run v a files df Hne Hkept) in Hrun.
  cbn zeta in Hrun. injection Hrun as <- _.
  apply list_elem_of_In in Hin. cbn in Hin.
  destruct Hin as [?|[?|[?|[?|[[= <- <-]|[]]]]]]; try discriminate.
  exists (py_sorted (elements (results a))).
  split; [reflexivity|]. split; [apply py_sorted_Sorted|].
  apply py_sorted_Permutation.
Qed.

Context (env : Env).
Context (invoke : nat → probe → string → result (list string)).

(** A search term that is no regular expression stops the script after
    the scan of the run: with results in the session, neither the table
    nor the export nor the logs tab follows. *)
Theorem page_stops_on_bad_pattern c v a files e :
  results (rerun env invoke c a) ≠ ∅ →
  search_term v ≠ "" →
  str_contains (search_term v) = Raise e →
  page linesep to_json_records str_contains env invoke c v a files
  = (summary a ++ [Markdown "### Results"], Some e,
     rerun env invoke c a, files).
Proof.
  intros Hne Hterm Hbad. unfold page.
  rewrite (results_tab_stopped v _ files e Hne); [reflexivity|].
  unfold filter_rows. apply truthy_nonempty in Hterm. by rewrite Hterm, Hbad.
Qed.

(** The summary of a run is drawn from the session as the run finds it:
    when the button starts a scan, the count and the last log line shown
    are those of before the scan, while the session the run leaves is the
    one after it. *)
Theorem page_summary_is_of_previous_run c v a files :
  ∃ rest stopped files',
    page linesep to_json_records str_contains env invoke c v a files
    = ([ Markdown "<div class='card'><b>Summary</b></div>";
         Metric "Total subdomains found" (size (results a));
         Caption ("Last log: "
                  +:+ match last (logs a) with
                      | Some line => line
                      | None => "No runs yet"
                      end) ] ++ rest,
       stopped, rerun env invoke c a, files').
Proof.
  unfold page.
  destruct (results_tab linesep to_json_records str_contains v
              (rerun env invoke c a) files) as [[tab [e|]] files'];
    by eexists _, _, _.
Qed.

End PageFacts.


Lemma results_tab_table_sorted_witness :
  NoDup ["www.x.com"; "API.x.com"]
  ∧ (∀ name, name ∈ ["www.x.com"; "API.x.com"] → name ∈ results two_names)
  ∧ (search_term (View "" false "CSV") = "" →
     ["www.x.com"; "API.x.com"] ≡ₚ elements (results two_names))
  ∧ Sorted str_le
      (if sort_asc (View "" false "CSV") then ["www.x.com"; "API.x.com"]
       else reverse ["www.x.com"; "API.x.com"]).
Proof.
  eapply (results_tab_table_sorted nl (λ _ _, "[]") plain_contains
            (View "" false "CSV") two_names ∅).
  - vm_compute. reflexivity.
  - apply list_elem_of_further, list_elem_of_here.
Defined.

Lemma results_tab_text_area_witness :
  ∃ names,
    "API.x.com" +:+ nl +:+ "www.x.com" = py_join nl names
    ∧ Sorted str_le names
    ∧ names ≡ₚ elements (results two_names).
Proof.
  eapply (results_tab_text_area nl (λ _ _, "[]") plain_contains
            (View "" false "CSV") two_names ∅ _ _
            "All subdomains (select then copy)").
  - vm_compute. reflexivity.
  - do 4 apply list_elem_of_further. apply list_elem_of_here.
Defined.

Lemma page_stops_on_bad_pattern_witness :
  page nl (λ _ _, "[]") plain_contains env_dns (invoke_on env_dns boot)
       (Controls "" false false false false) (View "(" true "CSV")
       two_names ∅
  = (summary two_names ++ [Markdown "### Results"],
     Some (Exn Exception "missing ), unterminated subpattern at position 0"),
     rerun env_dns (invoke_on env_dns boot)
       (Controls "" false false false false) two_names,
     ∅).
Proof.
  apply (page_stops_on_bad_pattern nl (λ _ _, "[]") plain_contains env_dns
           (invoke_on env_dns boot) (Controls "" false false false false)
           (View "(" true "CSV") two_names ∅).
  - vm_compute. discriminate.
  - discriminate.
  - reflexivity.
Defined.
